(** * tag_media.py: language tagging of movie.nfo sidecar files

    A shallow embedding of [src/tag_media.py] and the properties of its
    classification and sidecar-update logic.

    Conventions of the model
    - A Python [str] is a [string] of bytes holding its UTF-8 encoding.
      UTF-8 is self-synchronising, so [pattern in title] on code points
      and on the encoded bytes agree for well-formed text.
    - The disk is a finite map from paths to the bytes of regular files;
      a path exists when it is in the map, and reading or writing a file
      that is there does not fail (no directories, permissions or full
      disks).
    - [xml.etree.ElementTree], [json] and [subprocess] are libraries the
      script calls; their byte-level behaviour is taken as a parameter
      ([externals]), the control flow around them is the script's.
    - [os.path] is [posixpath]; [basename], [dirname] and [join] follow
      its definitions.
    - Exceptions are values: a computation returns [Ret v] or [Raise e],
      and [try ... except E] handles exactly the listed exception.
    - The outcomes of the libraries are the ones the types below list.
      An ffprobe that cannot be executed, output that cannot be decoded
      as text, and JSON whose "streams" member is not a list of stream
      objects are outside [run_outcome] and [json_value]; a parser that
      raises something other than [ET.ParseError] is covered by
      [update_nfo_via]. *)

From Stdlib Require Import ZArith Ascii String Bool List Lia.
From stdpp Require Import base option list strings gmap fin_maps.

Set Warnings "-register-all".

Local Open Scope string_scope.
Local Open Scope Z_scope.

(** ** Strings: slicing and the [in] operator *)

Module Str.

(** [s[n:]] *)
Fixpoint drop (n : nat) (s : string) : string :=
  match n, s with
  | O, _ => s
  | S n', String _ r => drop n' r
  | S _, EmptyString => EmptyString
  end.

(** [s[:n]] *)
Fixpoint take (n : nat) (s : string) : string :=
  match n, s with
  | O, _ => EmptyString
  | S n', String a r => String a (take n' r)
  | S _, EmptyString => EmptyString
  end.

(** [s.rfind(c)]: index of the last occurrence of [c], or [-1]. *)
Fixpoint rfind (c : ascii) (s : string) : Z :=
  match s with
  | EmptyString => -1
  | String a r =>
      let k := rfind c r in
      if 0 <=? k then k + 1
      else if Ascii.eqb a c then 0 else -1
  end.

(** [s == c * len(s)] *)
Fixpoint all_char (c : ascii) (s : string) : bool :=
  match s with
  | EmptyString => true
  | String a r => Ascii.eqb a c && all_char c r
  end.

(** [s.rstrip(c)] *)
Fixpoint rstrip (c : ascii) (s : string) : string :=
  match s with
  | EmptyString => EmptyString
  | String a r =>
      match rstrip c r with
      | EmptyString => if Ascii.eqb a c then EmptyString else String a EmptyString
      | r' => String a r'
      end
  end.

(** [s.startswith(p)] *)
Fixpoint startswith (p s : string) : bool :=
  match p, s with
  | EmptyString, _ => true
  | String _ _, EmptyString => false
  | String a p', String b s' => Ascii.eqb a b && startswith p' s'
  end.

(** [s.endswith(c)] for a one-character suffix *)
Fixpoint endswith_char (c : ascii) (s : string) : bool :=
  match s with
  | EmptyString => false
  | String a EmptyString => Ascii.eqb a c
  | String _ r => endswith_char c r
  end.

(** [pattern in s]: [pattern] occurs at some offset of [s]. *)
Fixpoint contains (pattern s : string) : bool :=
  startswith pattern s ||
  match s with
  | EmptyString => false
  | String _ r => contains pattern r
  end.

(** The meaning of substring containment, independent of the search. *)
Definition occurs_in (pattern s : string) : Prop :=
  exists pre post : string, s = pre +:+ pattern +:+ post.

End Str.

(** ** [posixpath] *)

Module os_path.

Definition sep : ascii := "/"%char.

Definition basename (p : string) : string :=
  let i := Str.rfind sep p + 1 in
  Str.drop (Z.to_nat i) p.

Definition dirname (p : string) : string :=
  let i := Str.rfind sep p + 1 in
  let head := Str.take (Z.to_nat i) p in
  if negb (String.eqb head "") && negb (Str.all_char sep head)
  then Str.rstrip sep head
  else head.

(** [os.path.join(a, b)] for one component [b] *)
Definition join (a b : string) : string :=
  if Str.startswith "/" b then b
  else if String.eqb a "" || Str.endswith_char sep a then a +:+ b
  else a +:+ "/" +:+ b.

End os_path.

(** ** Data *)

(** An [xml.etree.ElementTree.Element]: tag, attributes, text, tail and
    the ordered child elements. *)
Inductive Element : Type :=
  mkElement {
    tag : string;
    attrib : list (string * string);
    text : option string;
    tail : option string;
    children : list Element
  }.

(** [ET.Element(name)] *)
Definition ET_Element (name : string) : Element :=
  mkElement name [] None None [].

(** [e = ET.SubElement(parent, name); e.text = value]: the parent object
    is mutated in place, the new child goes last. *)
Definition ET_SubElement_with_text (parent : Element) (name value : string) : Element :=
  mkElement (tag parent) (attrib parent) (text parent) (tail parent)
            (children parent ++ [mkElement name [] (Some value) None []]).

(** One entry of ffprobe's ["streams"] array, as requested by
    [-show_entries stream=index:stream_tags=title]. *)
Record stream := {
  index : option Z;
  tags : option (gmap string string)
}.

(** What [json.loads] can give back: an object, of which only the
    ["streams"] member is looked at, or a value with no [get] method. *)
Inductive json_value :=
  | JObject (streams : option (list stream))
  | JOther.

(** How [subprocess.run(cmd, capture_output=True, text=True, check=True)]
    can end. *)
Inductive run_outcome :=
  | ToolNotFound
  | NonZeroExit (returncode : Z)
  | Completed (stdout : string).

Inductive exn :=
  | FileNotFoundError
  | CalledProcessError (returncode : Z)
  | JSONDecodeError
  | AttributeError
  | ParseError
  | KeyError (key : string)
  | LookupError
  | ValueError.

(** The libraries and the external tool. *)
Record externals := {
  (** running [ffprobe ... filepath] *)
  subprocess_run : string -> run_outcome;
  (** [json.loads]; [None] is [json.JSONDecodeError] *)
  json_loads : string -> option json_value;
  (** the XML parser behind [ET.parse] on a file's bytes; [None] is
      [ET.ParseError] *)
  xml_parse : string -> option Element;
  (** the bytes [tree.write(path, encoding="utf-8", xml_declaration=True)]
      stores for a tree with the given root *)
  xml_write : Element -> string
}.

Record language_config := {
  readable_name : string;
  search_patterns : list string;
  tags_to_add : list string
}.

Definition LANGUAGE_CONFIG : gmap string language_config :=
  {[ "de" := {| readable_name := "German";
                search_patterns := ["German"; "Deutsch"; "DE"; "De "];
                tags_to_add := ["German"; "Deutsch"] |} ]}.

(** ** Output *)

(** The lines the script prints, by the [print] call that emits them. *)
Inductive message :=
  | MsgFfprobeNotFound
  | MsgFfprobeError (filepath : string) (returncode : Z)
  | MsgFfprobeUnparseable (filepath : string)
  | MsgTagExists (tag_to_add nfo_path : string)
  | MsgWouldUpdate (nfo_path tag_to_add : string)
  | MsgUpdated (nfo_path tag_to_add : string)
  | MsgAudioTrack (filepath : string) (idx : option Z) (title : string)
  | MsgPatternInTitle (title : string)
  | MsgPatternInFileName (file_name : string)
  | MsgPatternInFolderName (folder_name : string)
  | MsgMediaFound (name filepath : string)
  | MsgNoMediaFound (name filepath : string).

Inductive event :=
  | Stdout (m : message)
  | Stderr (m : message).

(** ** The state and exception monad *)

Record world := {
  disk : gmap string string;
  log : list event
}.

Inductive result (A : Type) :=
  | Ret (a : A)
  | Raise (e : exn).
Arguments Ret {A} a.
Arguments Raise {A} e.

Definition M (A : Type) : Type := world -> result A * world.

Definition ret {A} (a : A) : M A := fun w => (Ret a, w).

Definition bind {A B} (m : M A) (k : A -> M B) : M B :=
  fun w =>
    match m w with
    | (Ret a, w') => k a w'
    | (Raise e, w') => (Raise e, w')
    end.

Definition raise {A} (e : exn) : M A := fun w => (Raise e, w).

(** [try: body except ...: handler e], where [handler e = None] for an
    exception no clause lists. *)
Definition try_except {A} (body : M A) (handler : exn -> option (M A)) : M A :=
  fun w =>
    match body w with
    | (Ret a, w') => (Ret a, w')
    | (Raise e, w') =>
        match handler e with
        | Some h => h w'
        | None => (Raise e, w')
        end
    end.

Notation "x <- m ;; k" := (bind m (fun x => k))
  (at level 100, m at next level, right associativity).
Notation "m ;;; k" := (bind m (fun _ => k))
  (at level 100, right associativity).

Definition print (m : message) : M unit :=
  fun w => (Ret tt, {| disk := disk w; log := log w ++ [Stdout m] |}).

Definition print_err (m : message) : M unit :=
  fun w => (Ret tt, {| disk := disk w; log := log w ++ [Stderr m] |}).

(** [if cond: body] *)
Definition when (cond : bool) (body : M unit) : M unit :=
  if cond then body else ret tt.

(** [os.path.exists(path)] *)
Definition path_exists (path : string) : M bool :=
  fun w => (Ret (bool_decide (is_Some (disk w !! path))), w).

Definition write_file (path bytes : string) : M unit :=
  fun w => (Ret tt, {| disk := <[path := bytes]> (disk w); log := log w |}).

(** [any(pattern in s for pattern in search_patterns)] *)
Definition any_pattern_in (patterns : list string) (s : string) : bool :=
  existsb (fun pattern => Str.contains pattern s) patterns.

Section Script.

Variable X : externals.

(** [ET.parse(path).getroot()] *)
Definition ET_parse (path : string) : M Element :=
  fun w =>
    match disk w !! path with
    | None => (Raise FileNotFoundError, w)
    | Some bytes =>
        match xml_parse X bytes with
        | Some root => (Ret root, w)
        | None => (Raise ParseError, w)
        end
    end.

(** [subprocess.run(cmd, capture_output=True, text=True, check=True)],
    giving [proc.stdout] *)
Definition run_ffprobe (filepath : string) : M string :=
  match subprocess_run X filepath with
  | ToolNotFound => raise FileNotFoundError
  | NonZeroExit rc => raise (CalledProcessError rc)
  | Completed out => ret out
  end.

Definition json_loads_M (s : string) : M json_value :=
  match json_loads X s with
  | Some v => ret v
  | None => raise JSONDecodeError
  end.

(** [data.get("streams", [])] *)
Definition get_streams (data : json_value) : M (list stream) :=
  match data with
  | JObject (Some l) => ret l
  | JObject None => ret []
  | JOther => raise AttributeError
  end.

Definition ffprobe_audio_tracks (filepath : string) : M (list stream) :=
  try_except
    (out <- run_ffprobe filepath ;;
     data <- json_loads_M out ;;
     get_streams data)
    (fun e =>
       match e with
       | FileNotFoundError =>
           Some (print_err MsgFfprobeNotFound ;;; ret [])
       | CalledProcessError rc =>
           Some (print_err (MsgFfprobeError filepath rc) ;;; ret [])
       | JSONDecodeError =>
           Some (print_err (MsgFfprobeUnparseable filepath) ;;; ret [])
       | _ => None
       end).

(** Lines 60-71 of [update_nfo]: the root the update works on. *)
Definition load_root (nfo_path : string) : M Element :=
  present <- path_exists nfo_path ;;
  if present then
    try_except (ET_parse nfo_path)
      (fun e =>
         match e with
         | ParseError => Some (ret (ET_Element "movie"))
         | _ => None
         end)
  else ret (ET_Element "movie").

(** [any(child.tag == "tag" and child.text == tag_to_add for child in root)] *)
Definition tag_exists (root : Element) (tag_to_add : string) : bool :=
  existsb
    (fun child =>
       String.eqb (tag child) "tag" &&
       match text child with
       | Some t => String.eqb t tag_to_add
       | None => false
       end)
    (children root).

(** What [update_nfo] leaves behind: the value it returns, and the tree
    its local [root] holds at that point. *)
Record nfo_result := {
  returned : bool;
  root_on_return : Element
}.

Definition update_nfo (nfo_path tag_to_add : string) (dry_run debug : bool)
  : M nfo_result :=
  root <- load_root nfo_path ;;
  if tag_exists root tag_to_add then
    when debug (print (MsgTagExists tag_to_add nfo_path)) ;;;
    ret {| returned := false; root_on_return := root |}
  else
    let root := ET_SubElement_with_text root "tag" tag_to_add in
    (if dry_run then print (MsgWouldUpdate nfo_path tag_to_add)
     else write_file nfo_path (xml_write X root) ;;;
          print (MsgUpdated nfo_path tag_to_add)) ;;;
    ret {| returned := true; root_on_return := root |}.

(** The title of a stream, [""] unless [stream["tags"]["title"]] exists. *)
Definition stream_title (s : stream) : string :=
  match tags s with
  | Some t =>
      match t !! "title" with
      | Some title => title
      | None => ""
      end
  | None => ""
  end.

(** Lines 105-114: the loop over the audio tracks. *)
Fixpoint scan_streams (filepath : string) (debug : bool)
    (patterns : list string) (streams : list stream) (found_lang : bool)
  : M bool :=
  match streams with
  | [] => ret found_lang
  | s :: rest =>
      let title := stream_title s in
      when debug (print (MsgAudioTrack filepath (index s) title)) ;;;
      if any_pattern_in patterns title then
        when debug (print (MsgPatternInTitle title)) ;;;
        scan_streams filepath debug patterns rest true
      else scan_streams filepath debug patterns rest found_lang
  end.

(** Lines 101-128: the value of [found_lang] when line 130 tests it. *)
Definition classify (filepath : string) (debug : bool)
    (patterns : list string) (streams : list stream) : M bool :=
  found_lang <- scan_streams filepath debug patterns streams false ;;
  let file_name := os_path.basename filepath in
  found_lang <-
    (if any_pattern_in patterns file_name then
       when debug (print (MsgPatternInFileName file_name)) ;;; ret true
     else ret found_lang) ;;
  let folder_name := os_path.basename (os_path.dirname filepath) in
  if any_pattern_in patterns folder_name then
    when debug (print (MsgPatternInFolderName folder_name)) ;;; ret true
  else ret found_lang.

(** [for tag in tags_to_add: update_nfo(nfo_path, tag, dry_run, debug)] *)
Fixpoint update_all (nfo_path : string) (tags_ : list string)
    (dry_run debug : bool) : M unit :=
  match tags_ with
  | [] => ret tt
  | t :: rest =>
      update_nfo nfo_path t dry_run debug ;;;
      update_all nfo_path rest dry_run debug
  end.

(** [LANGUAGE_CONFIG.get(language, LANGUAGE_CONFIG['de'])]; the default
    is evaluated before the call. *)
Definition select_config (language : string) : M language_config :=
  match LANGUAGE_CONFIG !! "de" with
  | None => raise (KeyError "de")
  | Some de => ret (default de (LANGUAGE_CONFIG !! language))
  end.

Definition process_video_file (filepath : string) (dry_run debug : bool)
    (language : string) : M unit :=
  config <- select_config language ;;
  let search_patterns := search_patterns config in
  let tags_to_add := tags_to_add config in
  streams <- ffprobe_audio_tracks filepath ;;
  let readable_name := readable_name config in
  found_lang <- classify filepath debug search_patterns streams ;;
  if found_lang then
    let nfo_path := os_path.join (os_path.dirname filepath) "movie.nfo" in
    update_all nfo_path tags_to_add dry_run debug ;;;
    print (MsgMediaFound readable_name filepath)
  else
    print (MsgNoMediaFound readable_name filepath).

End Script.

(** ** A writer and a reader for plain documents

    [ElementTree.write] for trees without namespaces, and a reader for
    what it emits (elements, attributes, character data and the five
    escapes; no comments, CDATA sections, DOCTYPE or processing
    instructions besides the declaration). They instantiate
    [xml_write] and [xml_parse] in the examples. *)

Module PlainXml.

Definition dquote : ascii := ascii_of_nat 34.
Definition newline : string := String (ascii_of_nat 10) "".

(** [_escape_cdata] *)
Fixpoint escape_cdata (s : string) : string :=
  match s with
  | EmptyString => ""
  | String c r =>
      (if Ascii.eqb c "&" then "&amp;"
       else if Ascii.eqb c "<" then "&lt;"
       else if Ascii.eqb c ">" then "&gt;"
       else String c "") +:+ escape_cdata r
  end.

(** [_escape_attrib] *)
Fixpoint escape_attrib (s : string) : string :=
  match s with
  | EmptyString => ""
  | String c r =>
      (if Ascii.eqb c "&" then "&amp;"
       else if Ascii.eqb c "<" then "&lt;"
       else if Ascii.eqb c ">" then "&gt;"
       else if Ascii.eqb c dquote then "&quot;"
       else if Ascii.eqb c (ascii_of_nat 13) then "&#13;"
       else if Ascii.eqb c (ascii_of_nat 10) then "&#10;"
       else if Ascii.eqb c (ascii_of_nat 9) then "&#09;"
       else String c "") +:+ escape_attrib r
  end.

Definition write_attrib (kv : string * string) : string :=
  " " +:+ fst kv +:+ "=" +:+ String dquote (escape_attrib (snd kv))
      +:+ String dquote "".

Definition write_opt (o : option string) : string :=
  match o with
  | Some t => escape_cdata t
  | None => ""
  end.

Definition is_empty_text (o : option string) : bool :=
  match o with
  | Some t => String.eqb t ""
  | None => true
  end.

(** [_serialize_xml] with [short_empty_elements=True] *)
Fixpoint serialize_xml (e : Element) : string :=
  match e with
  | mkElement name attrs txt tl kids =>
      "<" +:+ name +:+ String.concat "" (map write_attrib attrs) +:+
      (if negb (is_empty_text txt) || negb (Nat.eqb (length kids) 0) then
         ">" +:+ write_opt txt +:+
         (fix go (l : list Element) : string :=
            match l with
            | [] => ""
            | k :: r => serialize_xml k +:+ go r
            end) kids +:+
         "</" +:+ name +:+ ">"
       else " />") +:+
      write_opt tl
  end.

Definition declaration : string :=
  "<?xml version='1.0' encoding='utf-8'?>" +:+ newline.

Definition write (root : Element) : string :=
  declaration +:+ serialize_xml root.

Definition strip_prefix (p s : string) : option string :=
  if Str.startswith p s then Some (Str.drop (String.length p) s) else None.

Definition entities : list (string * ascii) :=
  [("amp;", "&"%char); ("lt;", "<"%char); ("gt;", ">"%char);
   ("quot;", dquote); ("#13;", ascii_of_nat 13); ("#10;", ascii_of_nat 10);
   ("#09;", ascii_of_nat 9)].

Fixpoint read_entity (table : list (string * ascii)) (s : string)
  : option (ascii * string) :=
  match table with
  | [] => None
  | (name, c) :: rest =>
      match strip_prefix name s with
      | Some s' => Some (c, s')
      | None => read_entity rest s
      end
  end.

(** Character data up to [stop] (not consumed) or the end of input. *)
Fixpoint read_chars (fuel : nat) (stop : ascii) (s : string)
  : option (string * string) :=
  match fuel with
  | O => None
  | S fuel' =>
      match s with
      | EmptyString => Some ("", "")
      | String c r =>
          if Ascii.eqb c stop then Some ("", s)
          else if Ascii.eqb c "&" then
            '(c', r') ← read_entity entities r;
            '(t, rest) ← read_chars fuel' stop r';
            Some (String c' t, rest)
          else
            '(t, rest) ← read_chars fuel' stop r;
            Some (String c t, rest)
      end
  end.

Definition name_end (c : ascii) : bool :=
  Ascii.eqb c " " || Ascii.eqb c "/" || Ascii.eqb c ">" || Ascii.eqb c "="
  || Ascii.eqb c "<".

Fixpoint read_name (s : string) : string * string :=
  match s with
  | EmptyString => ("", "")
  | String c r =>
      if name_end c then ("", s)
      else let '(n, rest) := read_name r in (String c n, rest)
  end.

Fixpoint read_attribs (fuel : nat) (s : string)
  : option (list (string * string) * string) :=
  match fuel with
  | O => None
  | S fuel' =>
      if Str.startswith " />" s || Str.startswith ">" s then Some ([], s)
      else
        s1 ← strip_prefix " " s;
        let '(k, s2) := read_name s1 in
        if String.eqb k "" then None
        else
          s3 ← strip_prefix ("=" +:+ String dquote "") s2;
          '(v, s4) ← read_chars fuel' dquote s3;
          s5 ← strip_prefix (String dquote "") s4;
          '(rest, s6) ← read_attribs fuel' s5;
          Some ((k, v) :: rest, s6)
  end.

Definition opt_text (t : string) : option string :=
  if String.eqb t "" then None else Some t.

Fixpoint read_element (fuel : nat) (s : string) : option (Element * string) :=
  match fuel with
  | O => None
  | S fuel' =>
      s1 ← strip_prefix "<" s;
      let '(name, s2) := read_name s1 in
      if String.eqb name "" then None
      else
        '(attrs, s3) ← read_attribs fuel' s2;
        match strip_prefix " />" s3 with
        | Some s4 =>
            '(tl, s5) ← read_chars fuel' "<" s4;
            Some (mkElement name attrs None (opt_text tl) [], s5)
        | None =>
            s4 ← strip_prefix ">" s3;
            '(txt, s5) ← read_chars fuel' "<" s4;
            '(kids, s6) ← read_children fuel' s5;
            s7 ← strip_prefix ("</" +:+ name +:+ ">") s6;
            '(tl, s8) ← read_chars fuel' "<" s7;
            Some (mkElement name attrs (opt_text txt) (opt_text tl) kids, s8)
        end
  end
with read_children (fuel : nat) (s : string) : option (list Element * string) :=
  match fuel with
  | O => None
  | S fuel' =>
      if Str.startswith "</" s then Some ([], s)
      else
        '(k, s1) ← read_element fuel' s;
        '(rest, s2) ← read_children fuel' s1;
        Some (k :: rest, s2)
  end.

Fixpoint is_space (s : string) : bool :=
  match s with
  | EmptyString => true
  | String c r =>
      (Ascii.eqb c " " || Ascii.eqb c (ascii_of_nat 10)
       || Ascii.eqb c (ascii_of_nat 13) || Ascii.eqb c (ascii_of_nat 9))
      && is_space r
  end.

(** One root element after an optional declaration; nothing but white
    space may follow it, and the root carries no tail. *)
Definition read (bytes : string) : option Element :=
  let body := default bytes (strip_prefix declaration bytes) in
  '(root, rest) ← read_element (S (String.length body)) body;
  if is_space (default "" (tail root)) && String.eqb rest "" then
    Some (mkElement (tag root) (attrib root) (text root) None (children root))
  else None.

End PlainXml.

(** An environment in which every ffprobe run ends the same way, its
    output is never JSON, and documents are plain. *)
Definition probe_ends (how : run_outcome) : externals :=
  {| subprocess_run := fun _ => how;
     json_loads := fun _ => None;
     xml_parse := PlainXml.read;
     xml_write := PlainXml.write |}.

(** ffprobe is not installed. *)
Definition no_ffprobe : externals := probe_ends ToolNotFound.

Definition empty_world : world := {| disk := ∅; log := [] |}.

(** The world after more lines were printed. *)
Definition emit (w : world) (out : list event) : world :=
  {| disk := disk w; log := log w ++ out |}.

(** The document a sidecar path stands for: what lines 60-71 bind to
    [root], as a function of the disk. *)
Definition root_of_disk (X : externals) (d : gmap string string)
    (nfo_path : string) : Element :=
  match d !! nfo_path with
  | Some bytes =>
      match xml_parse X bytes with
      | Some root => root
      | None => ET_Element "movie"
      end
  | None => ET_Element "movie"
  end.

(** The root has an immediate child named "tag" whose text is exactly
    [tag_to_add]. *)
Definition has_tag_child (root : Element) (tag_to_add : string) : Prop :=
  exists child : Element,
    In child (children root) /\ tag child = "tag" /\ text child = Some tag_to_add.

(** The decision in the specification's words: the OR, over the
    patterns, of the containment checks on every stream title, on the file
    name and on the folder name. *)
Definition spec_decision (patterns : list string) (streams : list stream)
    (filepath : string) : bool :=
  existsb (fun s => any_pattern_in patterns (stream_title s)) streams
  || any_pattern_in patterns (os_path.basename filepath)
  || any_pattern_in patterns (os_path.basename (os_path.dirname filepath)).

(** The profile of key "de". *)
Definition de_config : language_config :=
  {| readable_name := "German";
     search_patterns := ["German"; "Deutsch"; "DE"; "De "];
     tags_to_add := ["German"; "Deutsch"] |}.

(** A stream for which ffprobe reported no title tag. *)
Definition no_title (s : stream) : Prop :=
  tags s = None \/ exists t, tags s = Some t /\ t !! "title" = None.

(** The title of a stream read off the record: the value of "title" in
    its tags, and the empty text for a stream that has none. *)
Definition has_title (s : stream) (title : string) : Prop :=
  (exists t, tags s = Some t /\ t !! "title" = Some title)
  \/ (no_title s /\ title = "").

(** ** The updater over any parser

    Lines 54-89 once more, with [ET.parse(nfo_path).getroot()] taken as
    an arbitrary computation. A parser is not limited to a tree or
    [ET.ParseError]: on a sidecar whose declaration names an encoding it
    does not know, expat raises [LookupError], and [ValueError] on a
    multi-byte encoding. With [ET_parse X] as parser this is
    [update_nfo X]. *)
Definition load_root_via (parse : string -> M Element) (nfo_path : string)
  : M Element :=
  present <- path_exists nfo_path ;;
  if present then
    try_except (parse nfo_path)
      (fun e =>
         match e with
         | ParseError => Some (ret (ET_Element "movie"))
         | _ => None
         end)
  else ret (ET_Element "movie").

Definition update_nfo_via (X : externals) (parse : string -> M Element)
    (nfo_path tag_to_add : string) (dry_run debug : bool) : M nfo_result :=
  root <- load_root_via parse nfo_path ;;
  if tag_exists root tag_to_add then
    when debug (print (MsgTagExists tag_to_add nfo_path)) ;;;
    ret {| returned := false; root_on_return := root |}
  else
    let root := ET_SubElement_with_text root "tag" tag_to_add in
    (if dry_run then print (MsgWouldUpdate nfo_path tag_to_add)
     else write_file nfo_path (xml_write X root) ;;;
          print (MsgUpdated nfo_path tag_to_add)) ;;;
    ret {| returned := true; root_on_return := root |}.

(** An environment in which ffprobe prints a JSON list. *)
Definition probe_prints_list : externals :=
  {| subprocess_run := fun _ => Completed "[]";
     json_loads := fun _ => Some JOther;
     xml_parse := PlainXml.read;
     xml_write := PlainXml.write |}.

(** A parser that finds no codec for the encoding a sidecar declares. *)
Definition parse_unknown_encoding : string -> M Element :=
  fun _ => raise LookupError.

(** A sidecar that declares the encoding "foo". *)
Definition foo_encoded : string :=
  "<?xml version='1.0' encoding='foo'?><movie><tag>Deutsch</tag></movie>".

(** The world a committed insertion leaves: the serialised tree at the
    sidecar path and the confirmation line. *)
Definition committed (X : externals) (w : world) (nfo_path tag_to_add : string)
    (root : Element) : world :=
  {| disk := <[nfo_path := xml_write X root]> (disk w);
     log := log w ++ [Stdout (MsgUpdated nfo_path tag_to_add)] |}.

(** The tag element line 81-82 appends. *)
Definition new_tag_elem (tag_to_add : string) : Element :=
  mkElement "tag" [] (Some tag_to_add) None [].

(** Worlds and documents of the examples. *)
Definition sidecar : string := "Movies/Foo/movie.nfo".

Definition world_with (bytes : string) : world :=
  {| disk := {[ sidecar := bytes ]}; log := [] |}.

Definition german_doc : Element :=
  mkElement "movie" [] None None [new_tag_elem "German"].

Definition both_doc : Element :=
  mkElement "movie" [] None None [new_tag_elem "German"; new_tag_elem "Deutsch"].

Definition rich_doc : Element :=
  mkElement "movie" [("id", "42")] None None
    [mkElement "title" [] (Some "Das Boot") None [];
     new_tag_elem "War";
     mkElement "set" [] None None [mkElement "name" [] (Some "Classics") None []]].

(** ** The rest of the script: extensions, directory walk, [main] *)

(** [s[i:j]] *)
Definition str_slice (i j : nat) (s : string) : string :=
  Str.take (j - i) (Str.drop i s).

(** [c.lower()] on an ASCII letter *)
Definition lower_char (c : ascii) : ascii :=
  let n := nat_of_ascii c in
  if (Nat.leb 65 n && Nat.leb n 90)%bool then ascii_of_nat (n + 32) else c.

(** [s.lower()] on the UTF-8 bytes of [s]: ASCII letters are lowered and
    the Kelvin sign (U+212A, bytes E2 84 AA) becomes "k", the one code
    point outside ASCII whose lower case is ASCII. Every other code point
    lower-cases to text that is not ASCII and its bytes are kept as they
    are: the result is only ever compared with the ASCII entries of
    [VIDEO_EXTENSIONS]. *)
Fixpoint str_lower (s : string) : string :=
  match s with
  | EmptyString => EmptyString
  | String a r =>
      match r with
      | String b (String c r') =>
          if (Ascii.eqb a (ascii_of_nat 226) && Ascii.eqb b (ascii_of_nat 132)
              && Ascii.eqb c (ascii_of_nat 170))%bool
          then String "k" (str_lower r')
          else String (lower_char a) (str_lower r)
      | _ => String (lower_char a) (str_lower r)
      end
  end.

Module genericpath.

(** The loop of [_splitext] that skips the leading dots of the file name:
    [true] when a character other than the dot is found at one of the
    [steps] positions from [filenameIndex] on. *)
Fixpoint finds_non_dot (p : string) (filenameIndex steps : nat) : bool :=
  match steps with
  | O => false
  | S k =>
      if negb (String.eqb (str_slice filenameIndex (filenameIndex + 1) p) ".")
      then true
      else finds_non_dot p (S filenameIndex) k
  end.

(** [os.path.splitext(p)] *)
Definition splitext (p : string) : string * string :=
  let sepIndex := Str.rfind os_path.sep p in
  let dotIndex := Str.rfind "." p in
  if sepIndex <? dotIndex then
    let filenameIndex := Z.to_nat (sepIndex + 1) in
    if finds_non_dot p filenameIndex (Z.to_nat dotIndex - filenameIndex)
    then (Str.take (Z.to_nat dotIndex) p, Str.drop (Z.to_nat dotIndex) p)
    else (p, EmptyString)
  else (p, EmptyString).

End genericpath.

Definition VIDEO_EXTENSIONS : gset string :=
  {[ ".mkv"; ".mp4"; ".avi"; ".mov"; ".wmv"; ".flv"; ".mpeg"; ".mpg" ]}.

(** Lines 145-146: [os.path.splitext(filename)[1].lower() in VIDEO_EXTENSIONS] *)
Definition has_video_extension (filename : string) : bool :=
  let ext := str_lower (snd (genericpath.splitext filename)) in
  bool_decide (ext ∈ VIDEO_EXTENSIONS).

(** The parsed command line. *)
Module Args.
Record t := {
  path : string;
  dry_run : bool;
  debug : bool;
  language : string
}.
End Args.

(** The line [main] prints first. *)
Inductive banner :=
  | BannerDryRun
  | BannerHotRun.

Section Main.

Variable X : externals.

(** [os.walk(top)]: the [(root_dir, dirs, files)] triples it yields, in
    order. The listing is taken as given: the only files a run creates
    are movie.nfo sidecars, whose extension is not a video extension. *)
Variable os_walk : string -> list (string * list string * list string).

(** Lines 144-148: the loop over the files of one directory. *)
Fixpoint process_files (root_dir : string) (files : list string)
    (args : Args.t) : M unit :=
  match files with
  | [] => ret tt
  | filename :: rest =>
      (if has_video_extension filename then
         let filepath := os_path.join root_dir filename in
         process_video_file X filepath (Args.dry_run args) (Args.debug args)
           (Args.language args)
       else ret tt) ;;;
      process_files root_dir rest args
  end.

(** Lines 143-148: the loop over the triples. *)
Fixpoint walk_loop (entries : list (string * list string * list string))
    (args : Args.t) : M unit :=
  match entries with
  | [] => ret tt
  | (root_dir, _, files) :: rest =>
      process_files root_dir files args ;;;
      walk_loop rest args
  end.

(** [main(args)]: the banner of lines 139-142, printed before anything
    else, and the run of the loop. *)
Definition main (args : Args.t) (w : world) : banner * (result unit * world) :=
  (if Args.dry_run args then BannerDryRun else BannerHotRun,
   walk_loop (os_walk (Args.path args)) args w).

End Main.

(** ** Predicates and examples for the further properties *)


(** The computation leaves every path outside [S] as it was and removes
    no file. *)
Definition touches_only (S : string -> Prop) {A} (m : M A) : Prop :=
  forall w : world,
    (forall q : string, ~ S q -> disk (snd (m w)) !! q = disk w !! q) /\
    (forall q : string, is_Some (disk w !! q) -> is_Some (disk (snd (m w)) !! q)).

(** An environment in which ffprobe succeeds and its output decodes to
    [data]. *)
Definition probe_decodes (data : json_value) : externals :=
  {| subprocess_run := fun _ => Completed "{}";
     json_loads := fun _ => Some data;
     xml_parse := PlainXml.read;
     xml_write := PlainXml.write |}.

(** A stream titled "Deutsch 5.1" and one without tags. *)
Definition titled_stream : stream :=
  {| index := Some 1; tags := Some {[ "title" := "Deutsch 5.1" ]} |}.

Definition untitled_stream : stream :=
  {| index := Some 2; tags := None |}.

(** A small tree: two videos and notes in Movies/Foo, a trailer with an
    upper-case extension in Movies/Bar. *)
Definition small_walk (top : string) : list (string * list string * list string) :=
  [ (top, ["Foo"; "Bar"], []);
    (os_path.join top "Foo", [], ["Movie.DE.mkv"; "notes.txt"; "Extras.mp4"]);
    (os_path.join top "Bar", [], ["Trailer.MKV"; ".mkv"]) ].

Definition hot_args : Args.t :=
  {| Args.path := "Movies"; Args.dry_run := false; Args.debug := false;
     Args.language := "de" |}.

Definition dry_args : Args.t :=
  {| Args.path := "Movies"; Args.dry_run := true; Args.debug := false;
     Args.language := "de" |}.

(** * Properties *)

(** ** Examples of the path and string functions *)

Example basename_ex : os_path.basename "Movies/Foo/Movie.DE.mkv" = "Movie.DE.mkv".
Proof. reflexivity. Qed.

Example dirname_ex : os_path.dirname "Movies/Foo/Movie.DE.mkv" = "Movies/Foo".
Proof. reflexivity. Qed.

Example dirname_root_ex : os_path.dirname "/x.mkv" = "/".
Proof. reflexivity. Qed.

Example dirname_bare_ex : os_path.dirname "x.mkv" = "".
Proof. reflexivity. Qed.

Example dirname_double_slash_ex : os_path.dirname "a//x.mkv" = "a".
Proof. reflexivity. Qed.

Example join_ex : os_path.join "Movies/Foo" "movie.nfo" = "Movies/Foo/movie.nfo".
Proof. reflexivity. Qed.

Example contains_ex : Str.contains "DE" "Movie.DE.mkv" = true.
Proof. reflexivity. Qed.

Example contains_case_ex : Str.contains "DE" "Movie.de.mkv" = false.
Proof. reflexivity. Qed.

Example write_ex :
  PlainXml.write (ET_SubElement_with_text (ET_Element "movie") "tag" "German")
  = "<?xml version='1.0' encoding='utf-8'?>" +:+ PlainXml.newline +:+
    "<movie><tag>German</tag></movie>".
Proof. reflexivity. Qed.

Example read_write_ex :
  let doc :=
    mkElement "movie" [("id", "a<b")] None None
      [mkElement "title" [] (Some "A & B") (Some " ") [];
       mkElement "tag" [] (Some "German") None [];
       mkElement "set" [] None None [mkElement "name" [] None None []]] in
  PlainXml.read (PlainXml.write doc) = Some doc.
Proof. vm_compute. reflexivity. Qed.

Example read_truncated_ex : PlainXml.read "<movie><tag>German</tag>" = None.
Proof. vm_compute. reflexivity. Qed.

(** ** Substring containment *)

Lemma startswith_iff (p s : string) :
  Str.startswith p s = true <-> exists post, s = p +:+ post.
Proof.
  revert s. induction p as [|a p IH]; intros s; simpl.
  - split; [intros _; now exists s | reflexivity].
  - destruct s as [|b s].
    + split; [discriminate | intros [post H]; discriminate].
    + rewrite andb_true_iff, Ascii.eqb_eq, IH. split.
      * intros [-> [post ->]]. now exists post.
      * intros [post H]. injection H as -> ->. split; [reflexivity | now exists post].
Qed.

Lemma contains_iff (p s : string) :
  Str.contains p s = true <-> Str.occurs_in p s.
Proof.
  unfold Str.occurs_in. induction s as [|c s IH].
  - simpl. rewrite orb_false_r, startswith_iff. split.
    + intros [post H]. exists "", post. exact H.
    + intros [pre [post H]]. destruct pre; [now exists post | discriminate].
  - cbn [Str.contains]. rewrite orb_true_iff, startswith_iff, IH. split.
    + intros [[post H] | [pre [post H]]].
      * exists "", post. exact H.
      * exists (String c pre), post. simpl. now rewrite H.
    + intros [pre [post H]]. destruct pre as [|x pre].
      * left. now exists post.
      * right. simpl in H. injection H as _ H. now exists pre, post.
Qed.

Lemma contains_false_iff (p s : string) :
  Str.contains p s = false <-> ~ Str.occurs_in p s.
Proof.
  rewrite <- contains_iff. destruct (Str.contains p s); split; intros H;
    try reflexivity; try discriminate; try (intros H'; discriminate).
  exfalso. now apply H.
Qed.

Lemma any_pattern_in_iff (patterns : list string) (s : string) :
  any_pattern_in patterns s = true <->
  exists pattern, In pattern patterns /\ Str.occurs_in pattern s.
Proof.
  unfold any_pattern_in. rewrite existsb_exists.
  split; intros [pattern [Hin H]]; exists pattern; split; auto;
    now apply contains_iff.
Qed.

Lemma tag_exists_iff (root : Element) (tag_to_add : string) :
  tag_exists root tag_to_add = true <-> has_tag_child root tag_to_add.
Proof.
  unfold tag_exists, has_tag_child. rewrite existsb_exists.
  split; intros [child [Hin H]]; exists child; split; auto.
  - apply andb_true_iff in H as [Ht Hx]. apply String.eqb_eq in Ht.
    destruct (text child) as [t|]; [|discriminate].
    apply String.eqb_eq in Hx. now subst.
  - destruct H as [-> ->]. simpl. apply String.eqb_refl.
Qed.

(** ** The monad *)

Lemma emit_nil (w : world) : emit w [] = w.
Proof. destruct w. unfold emit. simpl. now rewrite app_nil_r. Qed.

Lemma emit_emit (w : world) (a b : list event) :
  emit (emit w a) b = emit w (a ++ b).
Proof. unfold emit. simpl. now rewrite List.app_assoc. Qed.

Lemma print_eq (m : message) (w : world) : print m w = (Ret tt, emit w [Stdout m]).
Proof. reflexivity. Qed.

Lemma when_print_eq (c : bool) (m : message) (w : world) :
  when c (print m) w = (Ret tt, emit w (if c then [Stdout m] else [])).
Proof. destruct c; simpl; [reflexivity | now rewrite emit_nil]. Qed.

(** ** The sidecar updater in closed form *)

Section Updater.

Variable X : externals.

Lemma load_root_eq (nfo_path : string) (w : world) :
  load_root X nfo_path w = (Ret (root_of_disk X (disk w) nfo_path), w).
Proof.
  unfold load_root, bind, path_exists, root_of_disk, try_except, ET_parse.
  destruct (disk w !! nfo_path) as [bytes|] eqn:E; simpl.
  - rewrite E. destruct (xml_parse X bytes); reflexivity.
  - reflexivity.
Qed.

Lemma update_nfo_eq (nfo_path tag_to_add : string) (dry_run debug : bool)
    (w : world) :
  update_nfo X nfo_path tag_to_add dry_run debug w =
  let root := root_of_disk X (disk w) nfo_path in
  if tag_exists root tag_to_add then
    (Ret {| returned := false; root_on_return := root |},
     emit w (if debug then [Stdout (MsgTagExists tag_to_add nfo_path)] else []))
  else
    let root' := ET_SubElement_with_text root "tag" tag_to_add in
    (Ret {| returned := true; root_on_return := root' |},
     if dry_run then emit w [Stdout (MsgWouldUpdate nfo_path tag_to_add)]
     else committed X w nfo_path tag_to_add root').
Proof.
  unfold update_nfo, bind at 1. rewrite load_root_eq. cbv zeta.
  destruct (tag_exists (root_of_disk X (disk w) nfo_path) tag_to_add).
  - unfold bind. rewrite when_print_eq. reflexivity.
  - destruct dry_run; reflexivity.
Qed.


End Updater.

Lemma tag_exists_after_insert (root : Element) (tag_to_add : string) :
  tag_exists (ET_SubElement_with_text root "tag" tag_to_add) tag_to_add = true.
Proof.
  unfold tag_exists. simpl. rewrite existsb_app. simpl.
  rewrite String.eqb_refl. now rewrite orb_true_r.
Qed.

Lemma root_of_disk_parsed (X : externals) (d : gmap string string)
    (nfo_path bytes : string) (root : Element) :
  d !! nfo_path = Some bytes -> xml_parse X bytes = Some root ->
  root_of_disk X d nfo_path = root.
Proof. intros Hd Hp. unfold root_of_disk. now rewrite Hd, Hp. Qed.

(** ** Idempotence *)

(** C1. When the root of the sidecar document already has an immediate
    child named "tag" whose text equals the tag to insert, [update_nfo]
    returns [False] and leaves the tree and the disk as they were (only a
    debug line may be printed). Hence a second insertion of the same tag
    after a committed one, whose written document reads back as the tree
    that was written, changes nothing: tree and disk are those left by the
    first insertion. *)
Theorem update_nfo_idempotent (X : externals) (nfo_path tag_to_add : string) :
  (forall (dry_run debug : bool) (w : world) (bytes : string) (root : Element),
      disk w !! nfo_path = Some bytes ->
      xml_parse X bytes = Some root ->
      has_tag_child root tag_to_add ->
      update_nfo X nfo_path tag_to_add dry_run debug w =
        (Ret {| returned := false; root_on_return := root |},
         emit w (if debug then [Stdout (MsgTagExists tag_to_add nfo_path)]
                 else [])))
  /\
  (forall (debug : bool) (w w1 : world) (r1 : nfo_result),
      update_nfo X nfo_path tag_to_add false debug w = (Ret r1, w1) ->
      xml_parse X (xml_write X (root_on_return r1)) = Some (root_on_return r1) ->
      forall dry_run' debug' : bool,
        update_nfo X nfo_path tag_to_add dry_run' debug' w1 =
          (Ret {| returned := false; root_on_return := root_on_return r1 |},
           emit w1 (if debug' then [Stdout (MsgTagExists tag_to_add nfo_path)]
                    else []))).
Proof.
  split.
  - intros dry_run debug w bytes root Hd Hp Ht.
    rewrite update_nfo_eq. cbv zeta.
    rewrite (root_of_disk_parsed X _ _ _ _ Hd Hp).
    apply tag_exists_iff in Ht. now rewrite Ht.
  - intros debug w w1 r1 H1 Hrt dry_run' debug'.
    rewrite update_nfo_eq in H1. cbv zeta in H1.
    rewrite update_nfo_eq. cbv zeta.
    destruct (tag_exists (root_of_disk X (disk w) nfo_path) tag_to_add) eqn:Et.
    + injection H1 as <- <-. simpl. now rewrite Et.
    + injection H1 as <- <-. simpl in *.
      assert (Hroot : root_of_disk X
                (<[nfo_path := xml_write X
                     (ET_SubElement_with_text
                        (root_of_disk X (disk w) nfo_path) "tag" tag_to_add)]>
                   (disk w)) nfo_path
              = ET_SubElement_with_text
                  (root_of_disk X (disk w) nfo_path) "tag" tag_to_add).
      { apply root_of_disk_parsed with (bytes := xml_write X
          (ET_SubElement_with_text (root_of_disk X (disk w) nfo_path)
             "tag" tag_to_add)).
        - apply lookup_insert_eq.
        - exact Hrt. }
      rewrite Hroot. now rewrite tag_exists_after_insert.
Qed.

Lemma update_nfo_idempotent_witness :
  update_nfo no_ffprobe sidecar "German" false true
    (world_with (PlainXml.write german_doc))
  = (Ret {| returned := false; root_on_return := german_doc |},
     emit (world_with (PlainXml.write german_doc))
       [Stdout (MsgTagExists "German" sidecar)])
  /\
  update_nfo no_ffprobe sidecar "German" false false
    (committed no_ffprobe empty_world sidecar "German" german_doc)
  = (Ret {| returned := false; root_on_return := german_doc |},
     emit (committed no_ffprobe empty_world sidecar "German" german_doc) []).
Proof.
  split.
  - apply (proj1 (update_nfo_idempotent no_ffprobe sidecar "German")
             false true _ (PlainXml.write german_doc) german_doc).
    + vm_compute. reflexivity.
    + vm_compute. reflexivity.
    + exists (new_tag_elem "German"). simpl. auto.
  - apply (proj2 (update_nfo_idempotent no_ffprobe sidecar "German")
             false empty_world _
             {| returned := true; root_on_return := german_doc |}).
    + vm_compute. reflexivity.
    + vm_compute. reflexivity.
Defined.

(** ** The returned flag *)


(** ** Dry run *)


(** ** Malformed sidecars *)

(** The handler of line 64: when the sidecar exists and the parser raises
    [ET.ParseError] on it, [update_nfo] returns [True], having started
    from a fresh root "movie" whose only child is now the new tag. A hot
    run stores that document at the sidecar path in place of the old
    content, a dry run only reports it. *)
Lemma update_nfo_malformed_recovery (X : externals)
    (nfo_path tag_to_add : string) (dry_run debug : bool) (w : world)
    (bytes : string) :
  disk w !! nfo_path = Some bytes ->
  xml_parse X bytes = None ->
  let doc := mkElement "movie" [] None None [new_tag_elem tag_to_add] in
  update_nfo X nfo_path tag_to_add dry_run debug w =
    (Ret {| returned := true; root_on_return := doc |},
     if dry_run then emit w [Stdout (MsgWouldUpdate nfo_path tag_to_add)]
     else committed X w nfo_path tag_to_add doc).
Proof.
  intros Hd Hp doc. rewrite update_nfo_eq. cbv zeta.
  unfold root_of_disk. rewrite Hd, Hp. reflexivity.
Qed.

Lemma update_nfo_malformed_recovery_witness :
  update_nfo no_ffprobe sidecar "German" false false
    (world_with "<movie><tag>Deutsch</tag>")
  = (Ret {| returned := true; root_on_return := german_doc |},
     committed no_ffprobe (world_with "<movie><tag>Deutsch</tag>")
       sidecar "German" german_doc).
Proof.
  apply (update_nfo_malformed_recovery no_ffprobe sidecar "German" false false
           (world_with "<movie><tag>Deutsch</tag>") "<movie><tag>Deutsch</tag>").
  - vm_compute. reflexivity.
  - vm_compute. reflexivity.
Defined.

Lemma update_nfo_via_ET_parse (X : externals) (nfo_path tag_to_add : string)
    (dry_run debug : bool) :
  update_nfo X nfo_path tag_to_add dry_run debug
  = update_nfo_via X (ET_parse X) nfo_path tag_to_add dry_run debug.
Proof. reflexivity. Qed.

(** C6. The recovery of line 64 covers [ET.ParseError] only. When the
    sidecar exists and the parser raises another exception on its
    content ([LookupError] for a declared encoding it does not know,
    [ValueError] for a multi-byte one), that exception is not caught:
    [update_nfo] raises it to its caller, no fresh document is produced,
    the unreadable content stays on disk and nothing is printed. *)
Theorem update_nfo_parser_exception_escapes (X : externals)
    (parse : string -> M Element) (nfo_path tag_to_add : string)
    (dry_run debug : bool) (w : world) (e : exn) :
  is_Some (disk w !! nfo_path) ->
  parse nfo_path w = (Raise e, w) ->
  e <> ParseError ->
  update_nfo_via X parse nfo_path tag_to_add dry_run debug w = (Raise e, w).
Proof.
  intros [bytes Hd] Hparse Hne.
  unfold update_nfo_via, load_root_via, bind, path_exists, try_except.
  rewrite Hd. simpl. rewrite Hparse.
  destruct e; try reflexivity. congruence.
Qed.

Lemma update_nfo_parser_exception_escapes_witness :
  update_nfo_via no_ffprobe parse_unknown_encoding sidecar "German" false false
    (world_with foo_encoded)
  = (Raise LookupError, world_with foo_encoded).
Proof.
  apply (update_nfo_parser_exception_escapes no_ffprobe parse_unknown_encoding
           sidecar "German" false false (world_with foo_encoded) LookupError).
  - vm_compute. eauto.
  - reflexivity.
  - discriminate.
Defined.

(** ** Preservation of the existing document *)

(** C8. When the sidecar parses, the tree [update_nfo] ends with has the
    root's tag, attributes, text and tail as loaded, and its children are
    the loaded children, in order and unmodified, followed by nothing or
    by exactly one new "tag" element holding the tag text. In the first
    case the disk is unchanged; in the second a hot run writes that tree
    to the sidecar path and nothing else, a dry run writes nothing. *)
Theorem update_nfo_preserves_structure (X : externals)
    (nfo_path tag_to_add : string) (dry_run debug : bool) (w : world)
    (bytes : string) (root : Element) :
  disk w !! nfo_path = Some bytes ->
  xml_parse X bytes = Some root ->
  exists (r : nfo_result) (w' : world) (added : list Element),
    update_nfo X nfo_path tag_to_add dry_run debug w = (Ret r, w') /\
    tag (root_on_return r) = tag root /\
    attrib (root_on_return r) = attrib root /\
    text (root_on_return r) = text root /\
    tail (root_on_return r) = tail root /\
    children (root_on_return r) = (children root ++ added)%list /\
    ((added = [] /\ returned r = false /\ disk w' = disk w) \/
     (added = [new_tag_elem tag_to_add] /\ returned r = true /\
      disk w' = if dry_run then disk w
                else <[nfo_path := xml_write X (root_on_return r)]> (disk w))).
Proof.
  intros Hd Hp. rewrite update_nfo_eq. cbv zeta.
  rewrite (root_of_disk_parsed X _ _ _ _ Hd Hp).
  destruct (tag_exists root tag_to_add).
  - exists {| returned := false; root_on_return := root |}, 
      (emit w (if debug then [Stdout (MsgTagExists tag_to_add nfo_path)] else [])), [].
    simpl. rewrite app_nil_r. repeat split; auto.
  - eexists _, _, [new_tag_elem tag_to_add].
    split; [reflexivity |]. simpl. repeat split; auto.
    right. repeat split; auto. now destruct dry_run.
Qed.

Lemma update_nfo_preserves_structure_witness :
  exists (r : nfo_result) (w' : world) (added : list Element),
    update_nfo no_ffprobe sidecar "German" false false
      (world_with (PlainXml.write rich_doc)) = (Ret r, w') /\
    tag (root_on_return r) = tag rich_doc /\
    attrib (root_on_return r) = attrib rich_doc /\
    text (root_on_return r) = text rich_doc /\
    tail (root_on_return r) = tail rich_doc /\
    children (root_on_return r) = (children rich_doc ++ added)%list /\
    ((added = [] /\ returned r = false /\
      disk w' = disk (world_with (PlainXml.write rich_doc))) \/
     (added = [new_tag_elem "German"] /\ returned r = true /\
      disk w' = <[sidecar := PlainXml.write (root_on_return r)]>
                  (disk (world_with (PlainXml.write rich_doc))))).
Proof.
  apply (update_nfo_preserves_structure no_ffprobe sidecar "German" false false
           (world_with (PlainXml.write rich_doc)) (PlainXml.write rich_doc) rich_doc).
  - vm_compute. reflexivity.
  - vm_compute. reflexivity.
Defined.

(** ** The prober *)

Lemma ffprobe_audio_tracks_emits (X : externals) (filepath : string) (w : world) :
  exists (r : result (list stream)) (out : list event),
    ffprobe_audio_tracks X filepath w = (r, emit w out).
Proof.
  unfold ffprobe_audio_tracks, try_except, bind, run_ffprobe, json_loads_M,
    get_streams, raise, ret.
  destruct (subprocess_run X filepath) as [|rc|out].
  - eexists _, _. reflexivity.
  - eexists _, _. reflexivity.
  - destruct (json_loads X out) as [[[l|]|]|].
    + exists (Ret l), []. now rewrite emit_nil.
    + exists (Ret []), []. now rewrite emit_nil.
    + exists (Raise AttributeError), []. now rewrite emit_nil.
    + eexists _, _. reflexivity.
Qed.

(** C7. In each of the three failure modes (ffprobe not found, ffprobe
    exiting with a non-zero status, output that is not JSON)
    [ffprobe_audio_tracks] returns the empty list, raises nothing, and has
    printed one diagnostic line to standard error. *)
Theorem ffprobe_audio_tracks_failures (X : externals) (filepath : string)
    (w : world) :
  (subprocess_run X filepath = ToolNotFound ->
   ffprobe_audio_tracks X filepath w
   = (Ret [], emit w [Stderr MsgFfprobeNotFound]))
  /\
  (forall rc : Z,
      subprocess_run X filepath = NonZeroExit rc ->
      ffprobe_audio_tracks X filepath w
      = (Ret [], emit w [Stderr (MsgFfprobeError filepath rc)]))
  /\
  (forall out : string,
      subprocess_run X filepath = Completed out ->
      json_loads X out = None ->
      ffprobe_audio_tracks X filepath w
      = (Ret [], emit w [Stderr (MsgFfprobeUnparseable filepath)])).
Proof.
  unfold ffprobe_audio_tracks, try_except, bind, run_ffprobe, json_loads_M.
  repeat split.
  - intros H. now rewrite H.
  - intros rc H. now rewrite H.
  - intros out H Hj. rewrite H. simpl. now rewrite Hj.
Qed.

Lemma ffprobe_audio_tracks_failures_witness :
  ffprobe_audio_tracks no_ffprobe "a.mkv" empty_world
  = (Ret [], emit empty_world [Stderr MsgFfprobeNotFound])
  /\
  ffprobe_audio_tracks (probe_ends (NonZeroExit 1)) "a.mkv" empty_world
  = (Ret [], emit empty_world [Stderr (MsgFfprobeError "a.mkv" 1)])
  /\
  ffprobe_audio_tracks (probe_ends (Completed "oops")) "a.mkv" empty_world
  = (Ret [], emit empty_world [Stderr (MsgFfprobeUnparseable "a.mkv")]).
Proof.
  split; [| split].
  - apply (proj1 (ffprobe_audio_tracks_failures no_ffprobe "a.mkv" empty_world)).
    reflexivity.
  - apply (proj1 (proj2 (ffprobe_audio_tracks_failures
                           (probe_ends (NonZeroExit 1)) "a.mkv" empty_world))).
    reflexivity.
  - apply (proj2 (proj2 (ffprobe_audio_tracks_failures
                           (probe_ends (Completed "oops")) "a.mkv" empty_world))
             "oops").
    + reflexivity.
    + reflexivity.
Defined.

(** ** The classifier *)

(** Run the binds of a computation whose steps are prints. *)
Ltac run_steps :=
  repeat first
    [ rewrite when_print_eq
    | rewrite print_eq
    | rewrite emit_emit
    | progress unfold bind, ret
    | progress cbn beta iota ].

Lemma scan_streams_eq (filepath : string) (debug : bool)
    (patterns : list string) (streams : list stream) :
  forall (found_lang : bool) (w : world),
  exists out : list event,
    scan_streams filepath debug patterns streams found_lang w
    = (Ret (found_lang
            || existsb (fun s => any_pattern_in patterns (stream_title s)) streams),
       emit w out)
    /\ (debug = false -> out = []).
Proof.
  induction streams as [|s rest IH]; intros found_lang w.
  - exists []. simpl. rewrite orb_false_r, emit_nil. now split.
  - cbn [scan_streams existsb]. unfold bind at 1. rewrite when_print_eq.
    destruct (any_pattern_in patterns (stream_title s)) eqn:Em.
    + unfold bind at 1. rewrite when_print_eq.
      destruct (IH true (emit (emit w (if debug then [Stdout (MsgAudioTrack filepath (index s) (stream_title s))] else []))
                           (if debug then [Stdout (MsgPatternInTitle (stream_title s))] else [])))
        as [out [Heq Hout]].
      rewrite Heq, !emit_emit. eexists. split.
      * simpl. now rewrite orb_true_r.
      * intros ->. now rewrite (Hout eq_refl).
    + destruct (IH found_lang (emit w (if debug then [Stdout (MsgAudioTrack filepath (index s) (stream_title s))] else [])))
        as [out [Heq Hout]].
      rewrite Heq, !emit_emit. eexists. split.
      * reflexivity.
      * intros ->. now rewrite (Hout eq_refl).
Qed.

Lemma classify_eq (filepath : string) (debug : bool) (patterns : list string)
    (streams : list stream) (w : world) :
  exists out : list event,
    classify filepath debug patterns streams w
    = (Ret (spec_decision patterns streams filepath), emit w out)
    /\ (debug = false -> out = []).
Proof.
  unfold classify, spec_decision.
  destruct (scan_streams_eq filepath debug patterns streams false w)
    as [out [Heq Hout]].
  unfold bind at 1. rewrite Heq. simpl orb.
  set (inT := existsb _ streams).
  destruct (any_pattern_in patterns (os_path.basename filepath));
    destruct (any_pattern_in patterns
                (os_path.basename (os_path.dirname filepath)));
    run_steps; rewrite ?orb_true_r, ?orb_false_r; simpl orb.
  - eexists. split; [reflexivity |]. intros ->. now rewrite (Hout eq_refl).
  - eexists. split; [reflexivity |]. intros ->. now rewrite (Hout eq_refl).
  - eexists. split; [reflexivity |]. intros ->. now rewrite (Hout eq_refl).
  - exists out. split; [reflexivity | exact Hout].
Qed.

Lemma spec_decision_iff (patterns : list string) (streams : list stream)
    (filepath : string) :
  spec_decision patterns streams filepath = true <->
  exists pattern : string,
    In pattern patterns /\
    ((exists s : stream, In s streams /\ Str.occurs_in pattern (stream_title s))
     \/ Str.occurs_in pattern (os_path.basename filepath)
     \/ Str.occurs_in pattern (os_path.basename (os_path.dirname filepath))).
Proof.
  unfold spec_decision.
  rewrite !orb_true_iff, existsb_exists, !any_pattern_in_iff. split.
  - intros [[[s [Hs Hm]] | [p [Hp Ho]]] | [p [Hp Ho]]].
    + apply any_pattern_in_iff in Hm as [p [Hp Ho]].
      exists p. split; [exact Hp |]. left. now exists s.
    + exists p. auto.
    + exists p. auto.
  - intros [p [Hp [[s [Hs Ho]] | [Ho | Ho]]]].
    + left. left. exists s. split; [exact Hs |].
      apply any_pattern_in_iff. now exists p.
    + left. right. now exists p.
    + right. now exists p.
Qed.

Lemma lookup_de : LANGUAGE_CONFIG !! "de" = Some de_config.
Proof. unfold LANGUAGE_CONFIG. apply lookup_singleton_eq. Qed.

Lemma select_config_eq (language : string) (w : world) :
  select_config language w
  = (Ret (default de_config (LANGUAGE_CONFIG !! language)), w).
Proof. unfold select_config. now rewrite lookup_de. Qed.

Lemma selected_is_de (language : string) :
  default de_config (LANGUAGE_CONFIG !! language) = de_config.
Proof.
  unfold LANGUAGE_CONFIG. destruct (decide (language = "de")) as [-> | Hne].
  - now rewrite lookup_singleton_eq.
  - rewrite lookup_singleton_ne; [reflexivity | congruence].
Qed.

Lemma no_title_empty (s : stream) : no_title s -> stream_title s = "".
Proof.
  unfold stream_title. intros [H | [t [H Ht]]]; rewrite H; [reflexivity |].
  now rewrite Ht.
Qed.

Lemma has_title_stream_title (s : stream) : has_title s (stream_title s).
Proof.
  unfold has_title, no_title, stream_title.
  destruct (tags s) as [t |] eqn:Et.
  - destruct (t !! "title") as [title |] eqn:El.
    + left. now exists t.
    + right. split; [right; now exists t | reflexivity].
  - right. split; [now left | reflexivity].
Qed.

Lemma has_title_unique (s : stream) (title : string) :
  has_title s title -> title = stream_title s.
Proof.
  unfold has_title, no_title, stream_title.
  intros [[t [Ht Hl]] | [[Hn | [t [Ht Hl]]] ->]].
  - now rewrite Ht, Hl.
  - now rewrite Hn.
  - now rewrite Ht, Hl.
Qed.

(** C4. The classifier always produces a decision, touching nothing but
    the log, and the decision is positive exactly when some pattern
    occurs, as a case-sensitive substring, in the title some stream
    carries in its tags (the empty text for a stream without title tag),
    in the file name or in the name of the containing folder. With the
    patterns of a selectable profile a stream without title tag never
    matches: taking it out of the stream list leaves the decision as it
    is. *)
Theorem classifier_decision (patterns : list string) (filepath : string)
    (debug : bool) (streams : list stream) (w : world) :
  (exists (b : bool) (out : list event),
      classify filepath debug patterns streams w = (Ret b, emit w out) /\
      (b = true <->
       exists pattern : string,
         In pattern patterns /\
         ((exists (s : stream) (title : string),
              In s streams /\ has_title s title /\
              Str.occurs_in pattern title)
          \/ Str.occurs_in pattern (os_path.basename filepath)
          \/ Str.occurs_in pattern
               (os_path.basename (os_path.dirname filepath)))))
  /\
  (forall (language : string) (config : language_config) (w0 w1 : world),
      select_config language w0 = (Ret config, w1) ->
      forall (s : stream) (before after : list stream),
        no_title s ->
        fst (classify filepath debug (search_patterns config)
               (before ++ s :: after) w)
        = fst (classify filepath debug (search_patterns config)
                 (before ++ after) w)).
Proof.
  split.
  - destruct (classify_eq filepath debug patterns streams w) as [out [Heq _]].
    exists (spec_decision patterns streams filepath), out.
    split; [exact Heq |]. rewrite spec_decision_iff.
    split; intros [p [Hp H]]; exists p; (split; [exact Hp |]).
    + destruct H as [[s [Hs Ho]] | H]; [| now right].
      left. exists s, (stream_title s).
      split; [exact Hs |]. split; [apply has_title_stream_title | exact Ho].
    + destruct H as [[s [title [Hs [Ht Ho]]]] | H]; [| now right].
      left. exists s. split; [exact Hs |].
      now rewrite <- (has_title_unique s title Ht).
  - intros language config w0 w1 Hsel s before after Hs.
    rewrite select_config_eq, selected_is_de in Hsel.
    injection Hsel as <- _.
    destruct (classify_eq filepath debug (search_patterns de_config)
                (before ++ s :: after) w) as [out1 [Heq1 _]].
    destruct (classify_eq filepath debug (search_patterns de_config)
                (before ++ after) w) as [out2 [Heq2 _]].
    rewrite Heq1, Heq2. cbn [fst]. f_equal.
    unfold spec_decision. rewrite !existsb_app. cbn [existsb].
    rewrite (no_title_empty s Hs).
    change (any_pattern_in (search_patterns de_config) "") with false.
    reflexivity.
Qed.

Lemma classifier_decision_witness :
  (exists out : list event,
      classify "Movies/Foo/plain.mkv" false (search_patterns de_config)
        [untitled_stream; titled_stream] empty_world
      = (Ret true, emit empty_world out))
  /\
  fst (classify "Movies/Foo/plain.mkv" false (search_patterns de_config)
         ([] ++ untitled_stream :: [titled_stream]) empty_world)
  = fst (classify "Movies/Foo/plain.mkv" false (search_patterns de_config)
           ([] ++ [titled_stream]) empty_world).
Proof.
  destruct (classifier_decision (search_patterns de_config)
              "Movies/Foo/plain.mkv" false [untitled_stream; titled_stream]
              empty_world) as [[b [out [Heq Hiff]]] Huntitled].
  split.
  - exists out. rewrite Heq.
    assert (Hb : b = true).
    { apply Hiff. exists "Deutsch". split; [simpl; auto |].
      left. exists titled_stream, "Deutsch 5.1".
      split; [simpl; auto |]. split.
      - left. exists {[ "title" := "Deutsch 5.1" ]}. split; reflexivity.
      - apply contains_iff. reflexivity. }
    now rewrite Hb.
  - apply (Huntitled "de" de_config empty_world empty_world eq_refl
             untitled_stream [] [titled_stream]).
    left. reflexivity.
Defined.

(** ** Folder matching *)

(** C10. Only the base name of the immediate parent directory is looked
    at as folder name: whatever else the path contains, when no pattern
    occurs in that base name, in the file name or in a stream title, the
    classifier's decision is negative. *)
Theorem folder_match_immediate_parent_only (patterns : list string)
    (filepath : string) (debug : bool) (streams : list stream) (w : world) :
  (forall pattern : string,
      In pattern patterns ->
      ~ Str.occurs_in pattern (os_path.basename (os_path.dirname filepath))) ->
  (forall pattern : string,
      In pattern patterns ->
      ~ Str.occurs_in pattern (os_path.basename filepath)) ->
  (forall (pattern : string) (s : stream),
      In pattern patterns -> In s streams ->
      ~ Str.occurs_in pattern (stream_title s)) ->
  exists out : list event,
    classify filepath debug patterns streams w = (Ret false, emit w out).
Proof.
  intros Hfolder Hfile Htitle.
  destruct (classify_eq filepath debug patterns streams w) as [out [Heq _]].
  exists out. rewrite Heq. f_equal. f_equal.
  destruct (spec_decision patterns streams filepath) eqn:E; [| reflexivity].
  exfalso. apply spec_decision_iff in E as [p [Hp [[s [Hs Ho]] | [Ho | Ho]]]].
  - exact (Htitle p s Hp Hs Ho).
  - exact (Hfile p Hp Ho).
  - exact (Hfolder p Hp Ho).
Qed.

Lemma folder_match_immediate_parent_only_witness :
  Str.occurs_in "German" (os_path.dirname (os_path.dirname "German/Foo/Movie.mkv"))
  /\
  exists out : list event,
    classify "German/Foo/Movie.mkv" true (search_patterns de_config)
      [{| index := Some 1; tags := None |}] empty_world
    = (Ret false, emit empty_world out).
Proof.
  split.
  - apply contains_iff. reflexivity.
  - apply (folder_match_immediate_parent_only (search_patterns de_config)
             "German/Foo/Movie.mkv" true
             [{| index := Some 1; tags := None |}] empty_world).
    + intros p Hp. apply contains_false_iff.
      simpl in Hp. destruct Hp as [<- | [<- | [<- | [<- | []]]]]; reflexivity.
    + intros p Hp. apply contains_false_iff.
      simpl in Hp. destruct Hp as [<- | [<- | [<- | [<- | []]]]]; reflexivity.
    + intros p s Hp Hs. apply contains_false_iff.
      simpl in Hs. destruct Hs as [<- | []].
      simpl in Hp. destruct Hp as [<- | [<- | [<- | [<- | []]]]]; reflexivity.
Defined.

(** ** Unknown language keys *)

(** C9. For a language key that [LANGUAGE_CONFIG] does not have, nothing
    is raised and the file is not skipped: the selected profile is the
    one of "de", and [process_video_file] probes the file, classifies it
    with the patterns "German", "Deutsch", "DE" and "De ", and on a match
    inserts the tags "German" and "Deutsch" into movie.nfo next to the
    file, which is exactly what it does for language "de". *)
Theorem unknown_language_falls_back_to_de (X : externals) (filepath : string)
    (dry_run debug : bool) (language : string) (w : world) :
  LANGUAGE_CONFIG !! language = None ->
  select_config language w = (Ret de_config, w) /\
  process_video_file X filepath dry_run debug language w
  = bind (ffprobe_audio_tracks X filepath)
      (fun streams =>
         bind (classify filepath debug ["German"; "Deutsch"; "DE"; "De "]
                 streams)
           (fun found_lang =>
              if found_lang then
                bind (update_all X
                        (os_path.join (os_path.dirname filepath) "movie.nfo")
                        ["German"; "Deutsch"] dry_run debug)
                  (fun _ => print (MsgMediaFound "German" filepath))
              else print (MsgNoMediaFound "German" filepath))) w /\
  process_video_file X filepath dry_run debug language w
  = process_video_file X filepath dry_run debug "de" w.
Proof.
  intros Hnone. split; [| split].
  - rewrite select_config_eq. now rewrite Hnone.
  - unfold process_video_file. unfold bind at 1.
    rewrite select_config_eq, Hnone. reflexivity.
  - unfold process_video_file, bind.
    now rewrite !select_config_eq, !selected_is_de.
Qed.

Lemma unknown_language_falls_back_to_de_witness :
  select_config "fr" empty_world = (Ret de_config, empty_world) /\
  process_video_file no_ffprobe "Movies/Foo/Movie.DE.mkv" false true "fr"
    empty_world
  = bind (ffprobe_audio_tracks no_ffprobe "Movies/Foo/Movie.DE.mkv")
      (fun streams =>
         bind (classify "Movies/Foo/Movie.DE.mkv" true
                 ["German"; "Deutsch"; "DE"; "De "] streams)
           (fun found_lang =>
              if found_lang then
                bind (update_all no_ffprobe
                        (os_path.join
                           (os_path.dirname "Movies/Foo/Movie.DE.mkv")
                           "movie.nfo")
                        ["German"; "Deutsch"] false true)
                  (fun _ =>
                     print (MsgMediaFound "German" "Movies/Foo/Movie.DE.mkv"))
              else print (MsgNoMediaFound "German" "Movies/Foo/Movie.DE.mkv")))
      empty_world /\
  process_video_file no_ffprobe "Movies/Foo/Movie.DE.mkv" false true "fr"
    empty_world
  = process_video_file no_ffprobe "Movies/Foo/Movie.DE.mkv" false true "de"
      empty_world.
Proof.
  apply (unknown_language_falls_back_to_de no_ffprobe "Movies/Foo/Movie.DE.mkv"
           false true "fr" empty_world).
  vm_compute. reflexivity.
Defined.

Example unknown_language_run :
  process_video_file no_ffprobe "Movies/Foo/Movie.DE.mkv" false false "fr"
    empty_world
  = (Ret tt,
     {| disk := {[ "Movies/Foo/movie.nfo" := PlainXml.write both_doc ]};
        log := [Stderr MsgFfprobeNotFound;
                Stdout (MsgUpdated "Movies/Foo/movie.nfo" "German");
                Stdout (MsgUpdated "Movies/Foo/movie.nfo" "Deutsch");
                Stdout (MsgMediaFound "German" "Movies/Foo/Movie.DE.mkv")] |}).
Proof. vm_compute. reflexivity. Qed.

(** ** Fallback to file and folder names *)

Lemma classify_no_streams (patterns : list string) (filepath : string)
    (debug : bool) (w : world) :
  exists out : list event,
    classify filepath debug patterns [] w
    = (Ret (any_pattern_in patterns (os_path.basename filepath)
            || any_pattern_in patterns
                 (os_path.basename (os_path.dirname filepath))),
       emit w out).
Proof.
  destruct (classify_eq filepath debug patterns [] w) as [out [Heq _]].
  exists out. exact Heq.
Qed.

Lemma classify_movie_de (debug : bool) (w : world) :
  classify "Movies/Foo/Movie.DE.mkv" debug (search_patterns de_config) [] w
  = (Ret true,
     emit w (if debug then [Stdout (MsgPatternInFileName "Movie.DE.mkv")]
             else [])).
Proof.
  destruct debug.
  - reflexivity.
  - unfold classify, bind. simpl. unfold ret. now rewrite emit_nil.
Qed.

Lemma update_all_german_deutsch (X : externals) (debug : bool) (w : world) :
  disk w !! sidecar = None ->
  xml_parse X (xml_write X german_doc) = Some german_doc ->
  update_all X sidecar ["German"; "Deutsch"] false debug w
  = (Ret tt,
     {| disk := <[sidecar := xml_write X both_doc]> (disk w);
        log := log w ++ [Stdout (MsgUpdated sidecar "German");
                         Stdout (MsgUpdated sidecar "Deutsch")] |}).
Proof.
  intros Hnone Hrt. cbn [update_all].
  assert (Hfresh : root_of_disk X (disk w) sidecar = ET_Element "movie").
  { unfold root_of_disk. now rewrite Hnone. }
  unfold bind at 1. rewrite update_nfo_eq. cbv zeta. rewrite !Hfresh.
  change (tag_exists (ET_Element "movie") "German") with false. cbv iota.
  change (ET_SubElement_with_text (ET_Element "movie") "tag" "German")
    with german_doc.
  unfold bind at 1. rewrite update_nfo_eq. cbv zeta.
  assert (Hroot : root_of_disk X
            (disk (committed X w sidecar "German" german_doc)) sidecar
          = german_doc).
  { apply root_of_disk_parsed with (bytes := xml_write X german_doc).
    - apply lookup_insert_eq.
    - exact Hrt. }
  rewrite Hroot.
  change (tag_exists german_doc "Deutsch") with false. cbv iota.
  change (ET_SubElement_with_text german_doc "tag" "Deutsch") with both_doc.
  unfold bind, ret, committed. simpl.
  rewrite insert_insert_eq, <- List.app_assoc. reflexivity.
Qed.

(** C5. With no stream at all the classifier decides on the file name and
    the folder name alone. For "Movies/Foo/Movie.DE.mkv", language "de",
    a probe that yields no stream, no sidecar yet, and a hot run: the
    file name "Movie.DE.mkv" contains "DE", the decision is positive,
    [update_nfo] runs once for "German" and once for "Deutsch" on
    "Movies/Foo/movie.nfo", and the sidecar then holds a "movie" root
    whose children are the tags "German" and "Deutsch" (given that the
    document written by the first update reads back as written). *)
Theorem fallback_on_file_name (X : externals) (debug : bool) (w w0 : world) :
  ffprobe_audio_tracks X "Movies/Foo/Movie.DE.mkv" w = (Ret [], w0) ->
  disk w !! "Movies/Foo/movie.nfo" = None ->
  xml_parse X (xml_write X german_doc) = Some german_doc ->
  (forall (patterns : list string) (filepath : string) (debug' : bool)
          (w' : world),
      exists out : list event,
        classify filepath debug' patterns [] w'
        = (Ret (any_pattern_in patterns (os_path.basename filepath)
                || any_pattern_in patterns
                     (os_path.basename (os_path.dirname filepath))),
           emit w' out))
  /\ Str.occurs_in "DE" (os_path.basename "Movies/Foo/Movie.DE.mkv")
  /\ os_path.join (os_path.dirname "Movies/Foo/Movie.DE.mkv") "movie.nfo"
     = "Movies/Foo/movie.nfo"
  /\ process_video_file X "Movies/Foo/Movie.DE.mkv" false debug "de" w
     = (Ret tt,
        {| disk := <["Movies/Foo/movie.nfo" := xml_write X both_doc]> (disk w);
           log := log w0
                  ++ (if debug
                      then [Stdout (MsgPatternInFileName "Movie.DE.mkv")]
                      else [])
                  ++ [Stdout (MsgUpdated "Movies/Foo/movie.nfo" "German");
                      Stdout (MsgUpdated "Movies/Foo/movie.nfo" "Deutsch");
                      Stdout (MsgMediaFound "German" "Movies/Foo/Movie.DE.mkv")]
        |}).
Proof.
  intros Hprobe Hnone Hrt.
  split; [intros; apply classify_no_streams |].
  split; [apply contains_iff; reflexivity |].
  split; [reflexivity |].
  destruct (ffprobe_audio_tracks_emits X "Movies/Foo/Movie.DE.mkv" w)
    as [r [out Hem]].
  rewrite Hem in Hprobe. injection Hprobe as -> <-.
  unfold process_video_file. unfold bind at 1.
  rewrite select_config_eq, selected_is_de.
  unfold bind at 1. rewrite Hem.
  unfold bind at 1. rewrite classify_movie_de. cbv iota zeta.
  change (os_path.join (os_path.dirname "Movies/Foo/Movie.DE.mkv") "movie.nfo")
    with sidecar.
  change (tags_to_add de_config) with ["German"; "Deutsch"].
  unfold bind. rewrite update_all_german_deutsch; [| exact Hnone | exact Hrt].
  unfold print, emit. simpl. rewrite <- !List.app_assoc. reflexivity.
Qed.

Lemma fallback_on_file_name_witness :
  process_video_file no_ffprobe "Movies/Foo/Movie.DE.mkv" false false "de"
    empty_world
  = (Ret tt,
     {| disk := {[ "Movies/Foo/movie.nfo" := PlainXml.write both_doc ]};
        log := [Stderr MsgFfprobeNotFound;
                Stdout (MsgUpdated "Movies/Foo/movie.nfo" "German");
                Stdout (MsgUpdated "Movies/Foo/movie.nfo" "Deutsch");
                Stdout (MsgMediaFound "German" "Movies/Foo/Movie.DE.mkv")] |}).
Proof.
  apply (fallback_on_file_name no_ffprobe false empty_world
           (emit empty_world [Stderr MsgFfprobeNotFound])).
  - vm_compute. reflexivity.
  - vm_compute. reflexivity.
  - vm_compute. reflexivity.
Defined.

(** * Further properties of the script *)

(** ** Which files a computation can change *)

Lemma touches_only_ret {A} (S : string -> Prop) (a : A) :
  touches_only S (ret a).
Proof. intros w. split; intros q H; exact H || reflexivity. Qed.

Lemma touches_only_raise {A} (S : string -> Prop) (e : exn) :
  touches_only S (@raise A e).
Proof. intros w. split; intros q H; exact H || reflexivity. Qed.

Lemma touches_only_emit {A} (S : string -> Prop) (m : M A) :
  (forall w, exists r out, m w = (r, emit w out)) -> touches_only S m.
Proof.
  intros H w. destruct (H w) as [r [out Heq]]. rewrite Heq. simpl.
  split; intros q Hq; exact Hq || reflexivity.
Qed.

Lemma touches_only_bind {A B} (S : string -> Prop) (m : M A) (k : A -> M B) :
  touches_only S m -> (forall a, touches_only S (k a)) ->
  touches_only S (bind m k).
Proof.
  intros Hm Hk w. unfold bind. destruct (Hm w) as [Hm1 Hm2].
  destruct (m w) as [[a | e] w1]; simpl in *.
  - destruct (Hk a w1) as [Hk1 Hk2]. split.
    + intros q Hq. rewrite (Hk1 q Hq). exact (Hm1 q Hq).
    + intros q Hq. apply Hk2, Hm2, Hq.
  - split; assumption.
Qed.

Lemma touches_only_mono {A} (S S' : string -> Prop) (m : M A) :
  (forall q, S q -> S' q) -> touches_only S m -> touches_only S' m.
Proof.
  intros Hsub Hm w. destruct (Hm w) as [H1 H2]. split; [| exact H2].
  intros q Hq. apply H1. intros HS. apply Hq, Hsub, HS.
Qed.

Lemma touches_nothing_disk {A} (m : M A) :
  touches_only (fun _ => False) m -> forall w, disk (snd (m w)) = disk w.
Proof.
  intros Hm w. apply map_eq. intros q. apply (proj1 (Hm w)). tauto.
Qed.

Lemma update_nfo_touches (X : externals) (nfo_path tag_to_add : string)
    (dry_run debug : bool) :
  touches_only (fun q => dry_run = false /\ q = nfo_path)
    (update_nfo X nfo_path tag_to_add dry_run debug).
Proof.
  intros w. rewrite update_nfo_eq. cbv zeta.
  destruct (tag_exists (root_of_disk X (disk w) nfo_path) tag_to_add).
  - simpl. split; intros q H; exact H || reflexivity.
  - destruct dry_run; simpl.
    + split; intros q H; exact H || reflexivity.
    + split; intros q H.
      * apply lookup_insert_ne. intros ->. apply H. now split.
      * destruct (decide (nfo_path = q)) as [-> | Hne].
        -- rewrite lookup_insert_eq. eauto.
        -- now rewrite lookup_insert_ne.
Qed.

Lemma update_all_touches (X : externals) (nfo_path : string)
    (tags_ : list string) (dry_run debug : bool) :
  touches_only (fun q => dry_run = false /\ q = nfo_path)
    (update_all X nfo_path tags_ dry_run debug).
Proof.
  induction tags_ as [| t rest IH]; cbn [update_all].
  - apply touches_only_ret.
  - apply touches_only_bind; [apply update_nfo_touches | intros _; exact IH].
Qed.

Lemma classify_touches (S : string -> Prop) (filepath : string) (debug : bool)
    (patterns : list string) (streams : list stream) :
  touches_only S (classify filepath debug patterns streams).
Proof.
  apply touches_only_emit. intros w.
  destruct (classify_eq filepath debug patterns streams w) as [out [Heq _]].
  eauto.
Qed.

Lemma print_touches (S : string -> Prop) (m : message) :
  touches_only S (print m).
Proof. apply touches_only_emit. intros w. rewrite print_eq. eauto. Qed.

Lemma process_video_file_touches (X : externals) (filepath : string)
    (dry_run debug : bool) (language : string) :
  touches_only
    (fun q => dry_run = false /\
              q = os_path.join (os_path.dirname filepath) "movie.nfo")
    (process_video_file X filepath dry_run debug language).
Proof.
  unfold process_video_file.
  apply touches_only_bind.
  { apply touches_only_emit. intros w. rewrite select_config_eq.
    exists (Ret (default de_config (LANGUAGE_CONFIG !! language))), [].
    now rewrite emit_nil. }
  intros config. apply touches_only_bind.
  { apply touches_only_emit. intros w. apply ffprobe_audio_tracks_emits. }
  intros streams. apply touches_only_bind; [apply classify_touches |].
  intros [|].
  - apply touches_only_bind; [apply update_all_touches |].
    intros _. apply print_touches.
  - apply print_touches.
Qed.

(** ** Path arithmetic *)

Lemma rfind_lower (c : ascii) (s : string) : -1 <= Str.rfind c s.
Proof.
  induction s as [| a r IH]; simpl; [lia |].
  destruct (0 <=? Str.rfind c r) eqn:E; [apply Z.leb_le in E; lia |].
  destruct (Ascii.eqb a c); lia.
Qed.

Lemma rfind_app_nosep (c : ascii) (a b : string) :
  Str.rfind c b = -1 -> Str.rfind c (a +:+ b) = Str.rfind c a.
Proof.
  intros Hb. induction a as [| x a IH]; simpl; [exact Hb | now rewrite IH].
Qed.

Lemma rfind_app_sep_last (c : ascii) (a b : string) :
  Str.rfind c b = -1 ->
  Str.rfind c (a +:+ String c b) = Z.of_nat (String.length a).
Proof.
  intros Hb. induction a as [| x a IH].
  - simpl. rewrite Hb. simpl. now rewrite Ascii.eqb_refl.
  - simpl. rewrite IH.
    destruct (0 <=? Z.of_nat (String.length a)) eqn:E;
      [lia | apply Z.leb_gt in E; lia].
Qed.

Lemma drop_app_length (a b : string) : Str.drop (String.length a) (a +:+ b) = b.
Proof. induction a as [| x a IH]; simpl; [now destruct b | exact IH]. Qed.

Lemma take_app_length (a b : string) : Str.take (String.length a) (a +:+ b) = a.
Proof. induction a as [| x a IH]; simpl; [now destruct b | now rewrite IH]. Qed.

Lemma str_app_cons (x : ascii) (a b : string) :
  String x a +:+ b = String x (a +:+ b).
Proof. reflexivity. Qed.

Lemma str_app_assoc (a b c : string) : (a +:+ b) +:+ c = a +:+ (b +:+ c).
Proof.
  induction a as [| x a IH]; [reflexivity |].
  now rewrite !str_app_cons, IH.
Qed.

Lemma str_app_length (a b : string) :
  String.length (a +:+ b) = (String.length a + String.length b)%nat.
Proof.
  induction a as [| x a IH]; [reflexivity |].
  rewrite str_app_cons. simpl. now rewrite IH.
Qed.

Lemma endswith_char_split (c : ascii) (s : string) :
  Str.endswith_char c s = true -> exists s', s = s' +:+ String c "".
Proof.
  induction s as [| a r IH]; [discriminate |].
  destruct r as [| b r'].
  - simpl. intros H. apply Ascii.eqb_eq in H as ->. now exists "".
  - intros H. destruct (IH H) as [s' Hs']. exists (String a s').
    rewrite str_app_cons. now rewrite <- Hs'.
Qed.

Lemma all_char_app (c : ascii) (a b : string) :
  Str.all_char c (a +:+ b) = Str.all_char c a && Str.all_char c b.
Proof.
  induction a as [| x a IH]; [reflexivity |].
  rewrite str_app_cons. simpl. now rewrite IH, andb_assoc.
Qed.

Lemma all_char_endswith (c : ascii) (s : string) :
  s <> "" -> Str.all_char c s = true -> Str.endswith_char c s = true.
Proof.
  induction s as [| a r IH]; [congruence |].
  intros _ H. simpl in H. apply andb_true_iff in H as [Ha Hr].
  destruct r as [| b r']; [exact Ha |].
  change (Str.endswith_char c (String a (String b r')))
    with (Str.endswith_char c (String b r')).
  apply IH; [discriminate | exact Hr].
Qed.

Lemma rstrip_no_end (c : ascii) (s : string) :
  Str.endswith_char c s = false -> Str.rstrip c s = s.
Proof.
  induction s as [| a r IH]; [reflexivity |].
  destruct r as [| b r'].
  - simpl. intros ->. reflexivity.
  - intros H.
    change (Str.endswith_char c (String a (String b r')))
      with (Str.endswith_char c (String b r')) in H.
    cbn [Str.rstrip]. cbn [Str.rstrip] in IH. rewrite (IH H). reflexivity.
Qed.

Lemma rstrip_app_sep (c : ascii) (s : string) :
  Str.rstrip c (s +:+ String c "") = Str.rstrip c s.
Proof.
  induction s as [| a r IH].
  - simpl. now rewrite Ascii.eqb_refl.
  - rewrite str_app_cons. simpl. now rewrite IH.
Qed.

Lemma rstrip_shape (c : ascii) (s : string) :
  Str.all_char c s = false ->
  Str.rstrip c s <> "" /\ Str.endswith_char c (Str.rstrip c s) = false.
Proof.
  induction s as [| a r IH]; [discriminate |].
  cbn [Str.all_char Str.rstrip]. intros H.
  destruct (Str.all_char c r) eqn:Er.
  - rewrite andb_true_r in H.
    assert (Hr : Str.rstrip c r = "").
    { clear -Er. induction r as [| b r IH]; [reflexivity |].
      simpl in Er. apply andb_true_iff in Er as [Hb Hr].
      simpl. now rewrite (IH Hr), Hb. }
    rewrite Hr, H. split; [discriminate | simpl; exact H].
  - destruct (IH eq_refl) as [Hne Hend].
    destruct (Str.rstrip c r) as [| b r'] eqn:E; [congruence |].
    split; [discriminate | exact Hend].
Qed.

(** A directory name is empty, or made of slashes only, or does not end
    in a slash. *)
Lemma dirname_shape (p : string) :
  let d := os_path.dirname p in
  d = "" \/ (d <> "" /\ Str.all_char os_path.sep d = true)
  \/ (d <> "" /\ Str.endswith_char os_path.sep d = false).
Proof.
  unfold os_path.dirname. cbv zeta.
  set (head := Str.take _ p).
  destruct (String.eqb_spec head "") as [-> | Hne]; simpl; [now left |].
  destruct (Str.all_char os_path.sep head) eqn:Ea; simpl.
  - right. left. now split.
  - right. right. now apply rstrip_shape.
Qed.

Lemma basename_app_sep (a b : string) :
  Str.rfind os_path.sep b = -1 ->
  os_path.basename (a +:+ String os_path.sep b) = b.
Proof.
  intros Hb. unfold os_path.basename.
  rewrite (rfind_app_sep_last _ _ _ Hb).
  replace (Z.to_nat (Z.of_nat (String.length a) + 1))
    with (String.length (a +:+ String os_path.sep "")).
  - replace (a +:+ String os_path.sep b)
      with ((a +:+ String os_path.sep "") +:+ b).
    + apply drop_app_length.
    + now rewrite str_app_assoc.
  - rewrite str_app_length. simpl. lia.
Qed.

Lemma join_cases (d : string) :
  os_path.join d "movie.nfo" = "movie.nfo" /\ d = ""
  \/ (exists d', d = d' +:+ "/" /\
                 os_path.join d "movie.nfo" = d' +:+ "/movie.nfo")
  \/ (d <> "" /\ Str.endswith_char os_path.sep d = false /\
      os_path.join d "movie.nfo" = d +:+ "/movie.nfo").
Proof.
  unfold os_path.join.
  change (Str.startswith "/" "movie.nfo") with false. cbv iota.
  destruct (String.eqb_spec d "") as [-> | Hne]; [left; now split |].
  simpl orb. destruct (Str.endswith_char os_path.sep d) eqn:E.
  - right. left. destruct (endswith_char_split _ _ E) as [d' ->].
    exists d'. split; [reflexivity |]. now rewrite str_app_assoc.
  - right. right. repeat split; assumption.
Qed.

Lemma endswith_char_app (c : ascii) (s : string) :
  Str.endswith_char c (s +:+ String c "") = true.
Proof.
  induction s as [| a r IH]; [simpl; apply Ascii.eqb_refl |].
  rewrite str_app_cons.
  destruct (r +:+ String c "") as [| b r'] eqn:E; [discriminate IH |].
  exact IH.
Qed.

Lemma dirname_app_sep (a b : string) :
  Str.rfind os_path.sep b = -1 ->
  os_path.dirname (a +:+ String os_path.sep b)
  = if Str.all_char os_path.sep a then a +:+ "/"
    else Str.rstrip os_path.sep a.
Proof.
  intros Hb. unfold os_path.dirname.
  rewrite (rfind_app_sep_last _ _ _ Hb).
  replace (Z.to_nat (Z.of_nat (String.length a) + 1))
    with (String.length (a +:+ String os_path.sep ""))
    by (rewrite str_app_length; simpl; lia).
  replace (a +:+ String os_path.sep b)
    with ((a +:+ String os_path.sep "") +:+ b)
    by now rewrite str_app_assoc.
  rewrite take_app_length.
  assert (Hne : String.eqb (a +:+ String os_path.sep "") "" = false).
  { destruct a; reflexivity. }
  rewrite Hne, all_char_app. simpl. rewrite andb_true_r.
  destruct (Str.all_char os_path.sep a); simpl; [reflexivity |].
  apply rstrip_app_sep.
Qed.

Lemma basename_join_nfo (d : string) :
  os_path.basename (os_path.join d "movie.nfo") = "movie.nfo".
Proof.
  destruct (join_cases d) as [[-> _] | [[d' [_ ->]] | [_ [_ ->]]]].
  - reflexivity.
  - now apply (basename_app_sep d' "movie.nfo").
  - now apply (basename_app_sep d "movie.nfo").
Qed.

(** ** Where the sidecar goes *)

(** X1. The sidecar path line 131 builds is named movie.nfo and lies in
    the directory of the video file: its directory name is the video's
    directory name, whatever the path looks like (no directory part, the
    root, doubled slashes). *)
Theorem sidecar_next_to_video (filepath : string) :
  let nfo_path := os_path.join (os_path.dirname filepath) "movie.nfo" in
  os_path.basename nfo_path = "movie.nfo" /\
  os_path.dirname nfo_path = os_path.dirname filepath.
Proof.
  cbv zeta. split; [apply basename_join_nfo |].
  pose proof (dirname_shape filepath) as Hshape. cbv zeta in Hshape.
  set (d := os_path.dirname filepath) in *.
  destruct (join_cases d) as [[-> ->] | [[d' [Hd ->]] | [Hne [Hend ->]]]].
  - reflexivity.
  - change (d' +:+ "/movie.nfo") with (d' +:+ String os_path.sep "movie.nfo").
    rewrite (dirname_app_sep d' "movie.nfo" eq_refl).
    destruct Hshape as [H | [[_ H] | [_ H]]].
    + rewrite Hd in H. destruct d'; discriminate.
    + rewrite Hd, all_char_app in H. apply andb_true_iff in H as [H _].
      now rewrite H.
    + rewrite Hd, endswith_char_app in H. discriminate.
  - change (d +:+ "/movie.nfo") with (d +:+ String os_path.sep "movie.nfo").
    rewrite (dirname_app_sep d "movie.nfo" eq_refl).
    destruct (Str.all_char os_path.sep d) eqn:Ea.
    + rewrite (all_char_endswith _ _ Hne Ea) in Hend. discriminate.
    + now apply rstrip_no_end.
Qed.

(** ** More on the sidecar updater *)

(** X2. When there is no sidecar at the path, [update_nfo] starts from an
    empty "movie" root and returns [True] with the tag as its only
    child; a hot run creates the file with that document, a dry run only
    reports it. *)
Theorem update_nfo_creates_missing (X : externals)
    (nfo_path tag_to_add : string) (dry_run debug : bool) (w : world) :
  disk w !! nfo_path = None ->
  let doc := mkElement "movie" [] None None [new_tag_elem tag_to_add] in
  update_nfo X nfo_path tag_to_add dry_run debug w =
    (Ret {| returned := true; root_on_return := doc |},
     if dry_run then emit w [Stdout (MsgWouldUpdate nfo_path tag_to_add)]
     else committed X w nfo_path tag_to_add doc).
Proof.
  intros Hd doc. rewrite update_nfo_eq. cbv zeta.
  unfold root_of_disk. rewrite Hd. reflexivity.
Qed.

Lemma update_nfo_creates_missing_witness :
  update_nfo no_ffprobe sidecar "German" false false empty_world
  = (Ret {| returned := true; root_on_return := german_doc |},
     committed no_ffprobe empty_world sidecar "German" german_doc).
Proof.
  apply (update_nfo_creates_missing no_ffprobe sidecar "German" false false
           empty_world).
  vm_compute. reflexivity.
Defined.

(** X3. [update_nfo] changes no file other than the sidecar it is given,
    and it removes no file: every path that existed before the call
    exists after it. *)
Theorem update_nfo_frame (X : externals) (nfo_path tag_to_add : string)
    (dry_run debug : bool) (w : world) :
  let w' := snd (update_nfo X nfo_path tag_to_add dry_run debug w) in
  (forall q : string, q <> nfo_path -> disk w' !! q = disk w !! q) /\
  (forall q : string, is_Some (disk w !! q) -> is_Some (disk w' !! q)).
Proof.
  destruct (update_nfo_touches X nfo_path tag_to_add dry_run debug w)
    as [H1 H2].
  split; [| exact H2]. intros q Hq. apply H1. tauto.
Qed.

(** X4. After a hot [update_nfo], whatever it returned, the document at
    the sidecar path has the tag as an immediate child of its root
    (given, when a document was written, that it reads back as
    written). *)
Theorem update_nfo_tag_present_after (X : externals)
    (nfo_path tag_to_add : string) (debug : bool) (w w' : world)
    (r : nfo_result) :
  update_nfo X nfo_path tag_to_add false debug w = (Ret r, w') ->
  (returned r = true ->
   xml_parse X (xml_write X (root_on_return r)) = Some (root_on_return r)) ->
  has_tag_child (root_of_disk X (disk w') nfo_path) tag_to_add.
Proof.
  intros Hrun Hrt. rewrite update_nfo_eq in Hrun. cbv zeta in Hrun.
  apply tag_exists_iff.
  destruct (tag_exists (root_of_disk X (disk w) nfo_path) tag_to_add) eqn:Et.
  - injection Hrun as <- <-. exact Et.
  - injection Hrun as <- <-. simpl in *.
    erewrite root_of_disk_parsed;
      [apply tag_exists_after_insert | apply lookup_insert_eq
      | exact (Hrt eq_refl)].
Qed.

Lemma update_nfo_tag_present_after_witness :
  has_tag_child
    (root_of_disk no_ffprobe
       (disk (committed no_ffprobe (world_with (PlainXml.write rich_doc))
                sidecar "German"
                (ET_SubElement_with_text rich_doc "tag" "German")))
       sidecar)
    "German".
Proof.
  apply (update_nfo_tag_present_after no_ffprobe sidecar "German" false
           (world_with (PlainXml.write rich_doc)) _
           {| returned := true;
              root_on_return := ET_SubElement_with_text rich_doc "tag" "German" |}).
  - vm_compute. reflexivity.
  - intros _. vm_compute. reflexivity.
Defined.





(** ** The loop over the tags *)

Lemma update_all_present_eq (X : externals) (nfo_path : string)
    (tags_ : list string) (dry_run debug : bool) (w : world) :
  (forall t : string,
      In t tags_ -> has_tag_child (root_of_disk X (disk w) nfo_path) t) ->
  update_all X nfo_path tags_ dry_run debug w
  = (Ret tt,
     emit w (if debug
             then map (fun t => Stdout (MsgTagExists t nfo_path)) tags_
             else [])).
Proof.
  revert w. induction tags_ as [| t rest IH]; intros w Hall.
  - simpl. unfold ret. destruct debug; now rewrite emit_nil.
  - cbn [update_all]. unfold bind at 1. rewrite update_nfo_eq. cbv zeta.
    assert (Ht : tag_exists (root_of_disk X (disk w) nfo_path) t = true).
    { apply tag_exists_iff, Hall. now left. }
    rewrite Ht. rewrite IH.
    + rewrite emit_emit. destruct debug; reflexivity.
    + intros t' Hin. simpl. apply Hall. now right.
Qed.

(** X6. When every tag of the list is already a child of the sidecar's
    root, the loop over the tags writes nothing, in a hot run as in a dry
    run: the world afterwards differs only by one "already exists" line
    per tag, printed under [debug]. *)
Theorem update_all_already_present (X : externals) (nfo_path : string)
    (tags_ : list string) (dry_run debug : bool) (w : world) :
  (forall t : string,
      In t tags_ -> has_tag_child (root_of_disk X (disk w) nfo_path) t) ->
  update_all X nfo_path tags_ dry_run debug w
  = (Ret tt,
     emit w (if debug
             then map (fun t => Stdout (MsgTagExists t nfo_path)) tags_
             else [])).
Proof.
  revert w. induction tags_ as [| t rest IH]; intros w Hall.
  - simpl. unfold ret. destruct debug; now rewrite emit_nil.
  - cbn [update_all]. unfold bind at 1. rewrite update_nfo_eq. cbv zeta.
    assert (Ht : tag_exists (root_of_disk X (disk w) nfo_path) t = true).
    { apply tag_exists_iff, Hall. now left. }
    rewrite Ht. rewrite IH.
    + rewrite emit_emit. destruct debug; reflexivity.
    + intros t' Hin. simpl. apply Hall. now right.
Qed.

Lemma update_all_already_present_witness :
  update_all no_ffprobe sidecar ["German"; "Deutsch"] false true
    (world_with (PlainXml.write both_doc))
  = (Ret tt,
     emit (world_with (PlainXml.write both_doc))
       [Stdout (MsgTagExists "German" sidecar);
        Stdout (MsgTagExists "Deutsch" sidecar)]).
Proof.
  apply (update_all_already_present no_ffprobe sidecar ["German"; "Deutsch"]
           false true (world_with (PlainXml.write both_doc))).
  intros t Hin. apply tag_exists_iff.
  simpl in Hin. destruct Hin as [<- | [<- | []]]; vm_compute; reflexivity.
Defined.


(** ** More on the prober *)

(** X8. When ffprobe succeeds and its output is a JSON object,
    [ffprobe_audio_tracks] returns the object's "streams" list, or the
    empty list when the object has no such member, and prints nothing. *)
Theorem ffprobe_audio_tracks_success (X : externals) (filepath out : string)
    (streams : option (list stream)) (w : world) :
  subprocess_run X filepath = Completed out ->
  json_loads X out = Some (JObject streams) ->
  ffprobe_audio_tracks X filepath w = (Ret (default [] streams), w).
Proof.
  intros Hrun Hjson.
  unfold ffprobe_audio_tracks, try_except, bind, run_ffprobe, json_loads_M.
  rewrite Hrun. simpl. rewrite Hjson. now destruct streams.
Qed.

Lemma ffprobe_audio_tracks_success_witness :
  ffprobe_audio_tracks (probe_decodes (JObject (Some [titled_stream])))
    "a.mkv" empty_world = (Ret [titled_stream], empty_world)
  /\
  ffprobe_audio_tracks (probe_decodes (JObject None)) "a.mkv" empty_world
  = (Ret [], empty_world).
Proof.
  split.
  - apply (ffprobe_audio_tracks_success
             (probe_decodes (JObject (Some [titled_stream]))) "a.mkv" "{}"
             (Some [titled_stream]) empty_world); reflexivity.
  - apply (ffprobe_audio_tracks_success
             (probe_decodes (JObject None)) "a.mkv" "{}" None empty_world);
      reflexivity.
Defined.

(** X9. [ffprobe_audio_tracks] never touches the disk and never prints to
    standard output. It prints at all only when it handled a failure: then
    it printed one line to standard error and the list it returns is
    empty. *)
Theorem ffprobe_audio_tracks_quiet (X : externals) (filepath : string)
    (w : world) :
  exists (r : result (list stream)) (out : list event),
    ffprobe_audio_tracks X filepath w = (r, emit w out) /\
    (out = [] \/ (r = Ret [] /\ exists m : message, out = [Stderr m])).
Proof.
  unfold ffprobe_audio_tracks, try_except, bind, run_ffprobe, json_loads_M,
    get_streams, raise, ret.
  destruct (subprocess_run X filepath) as [| rc | out].
  - eexists _, _. split; [reflexivity |]. right. eauto.
  - eexists _, _. split; [reflexivity |]. right. eauto.
  - destruct (json_loads X out) as [[[l |] |] |].
    + exists (Ret l), []. rewrite emit_nil. auto.
    + exists (Ret []), []. rewrite emit_nil. auto.
    + exists (Raise AttributeError), []. rewrite emit_nil. auto.
    + eexists _, _. split; [reflexivity |]. right. eauto.
Qed.

(** ** More on the classifier *)

(** X10. The decision of the classifier does not depend on [debug], and
    without [debug] the classifier prints nothing and changes nothing. *)
Theorem classify_debug_only_prints (filepath : string) (patterns : list string)
    (streams : list stream) (w : world) :
  classify filepath false patterns streams w
  = (Ret (spec_decision patterns streams filepath), w)
  /\
  fst (classify filepath true patterns streams w)
  = Ret (spec_decision patterns streams filepath).
Proof.
  split.
  - destruct (classify_eq filepath false patterns streams w) as [out [Heq Hout]].
    rewrite Heq, (Hout eq_refl). now rewrite emit_nil.
  - destruct (classify_eq filepath true patterns streams w) as [out [Heq _]].
    now rewrite Heq.
Qed.

Lemma contains_empty (s : string) : Str.contains "" s = true.
Proof. destruct s; reflexivity. Qed.

(** X11. An empty search pattern matches everything: with "" among the
    patterns the decision is positive for every file, whatever its
    streams, name and folder. *)
Theorem empty_pattern_matches_all (patterns : list string) (filepath : string)
    (debug : bool) (streams : list stream) (w : world) :
  In "" patterns ->
  exists out : list event,
    classify filepath debug patterns streams w = (Ret true, emit w out).
Proof.
  intros Hin.
  destruct (classify_eq filepath debug patterns streams w) as [out [Heq _]].
  exists out. rewrite Heq. f_equal. f_equal.
  unfold spec_decision.
  assert (H : any_pattern_in patterns (os_path.basename filepath) = true).
  { unfold any_pattern_in. apply existsb_exists. exists "".
    split; [exact Hin | apply contains_empty]. }
  rewrite H. now rewrite orb_true_r.
Qed.

Lemma empty_pattern_matches_all_witness :
  exists out : list event,
    classify "Movies/Foo/plain.mkv" false ["German"; ""] [] empty_world
    = (Ret true, emit empty_world out).
Proof.
  apply (empty_pattern_matches_all ["German"; ""] "Movies/Foo/plain.mkv"
           false [] empty_world).
  simpl. auto.
Defined.

(** X12. More evidence never hurts: a positive decision stays positive
    when audio tracks are added, in any position, and when patterns are
    added. *)
Theorem classify_monotone (patterns patterns' : list string)
    (streams streams' : list stream) (filepath : string) :
  incl patterns patterns' ->
  incl streams streams' ->
  forall (debug debug' : bool) (w w' : world),
    fst (classify filepath debug patterns streams w) = Ret true ->
    fst (classify filepath debug' patterns' streams' w') = Ret true.
Proof.
  intros Hp Hs debug debug' w w' Hdec.
  destruct (classify_eq filepath debug patterns streams w) as [out0 [Heq0 _]].
  rewrite Heq0 in Hdec. simpl in Hdec. injection Hdec as Hdec.
  destruct (classify_eq filepath debug' patterns' streams' w') as [out [Heq _]].
  rewrite Heq. simpl. f_equal.
  apply spec_decision_iff in Hdec as [p [Hin H]].
  apply spec_decision_iff. exists p. split; [now apply Hp |].
  destruct H as [[s [Hs' Ho]] | H]; [| now right].
  left. exists s. split; [now apply Hs | exact Ho].
Qed.

Lemma classify_monotone_witness :
  fst (classify "Movies/Foo/plain.mkv" false (search_patterns de_config)
         [untitled_stream; titled_stream] empty_world) = Ret true.
Proof.
  apply (classify_monotone ["Deutsch"] (search_patterns de_config)
           [titled_stream] [untitled_stream; titled_stream]
           "Movies/Foo/plain.mkv") with (debug := true) (w := empty_world).
  - intros p [<- | []]. simpl. auto.
  - intros s [<- | []]. simpl. auto.
  - vm_compute. reflexivity.
Defined.

(** ** The processing of one file *)

Lemma process_video_file_eq (X : externals) (filepath : string)
    (dry_run debug : bool) (language : string) (w : world) :
  process_video_file X filepath dry_run debug language w
  = bind (ffprobe_audio_tracks X filepath)
      (fun streams =>
         bind (classify filepath debug (search_patterns de_config) streams)
           (fun found_lang =>
              if found_lang then
                bind (update_all X
                        (os_path.join (os_path.dirname filepath) "movie.nfo")
                        (tags_to_add de_config) dry_run debug)
                  (fun _ => print (MsgMediaFound "German" filepath))
              else print (MsgNoMediaFound "German" filepath))) w.
Proof.
  unfold process_video_file. unfold bind at 1.
  now rewrite select_config_eq, selected_is_de.
Qed.

(** X13. [process_video_file] changes no file other than movie.nfo in the
    directory of the video, and removes no file: the video itself and
    every other path are after the call what they were before. *)
Theorem process_video_file_frame (X : externals) (filepath : string)
    (dry_run debug : bool) (language : string) (w : world) :
  let w' := snd (process_video_file X filepath dry_run debug language w) in
  (forall q : string,
      q <> os_path.join (os_path.dirname filepath) "movie.nfo" ->
      disk w' !! q = disk w !! q) /\
  (forall q : string, is_Some (disk w !! q) -> is_Some (disk w' !! q)).
Proof.
  destruct (process_video_file_touches X filepath dry_run debug language w)
    as [H1 H2].
  split; [| exact H2]. intros q Hq. apply H1. tauto.
Qed.

(** X14. In a dry run [process_video_file] leaves the whole disk as it
    was, whether the file matches or not and whether the call returns or
    raises. *)
Theorem process_video_file_dry_run (X : externals) (filepath : string)
    (debug : bool) (language : string) (w : world) :
  disk (snd (process_video_file X filepath true debug language w)) = disk w.
Proof.
  apply touches_nothing_disk.
  apply touches_only_mono
    with (S := fun q => true = false /\
                        q = os_path.join (os_path.dirname filepath) "movie.nfo").
  - intros q [H _]. discriminate.
  - apply process_video_file_touches.
Qed.

(** X15. When the probe returns streams and the decision is negative,
    [process_video_file] writes nothing, in a hot run too: it returns
    after printing, as its last line, that no German media was found,
    whatever language key was passed. *)
Theorem process_video_file_no_match (X : externals) (filepath : string)
    (dry_run debug : bool) (language : string) (w w0 : world)
    (streams : list stream) :
  ffprobe_audio_tracks X filepath w = (Ret streams, w0) ->
  fst (classify filepath debug (search_patterns de_config) streams w0)
  = Ret false ->
  exists out : list event,
    process_video_file X filepath dry_run debug language w
    = (Ret tt, emit w (out ++ [Stdout (MsgNoMediaFound "German" filepath)])).
Proof.
  intros Hprobe Hdec.
  destruct (ffprobe_audio_tracks_emits X filepath w) as [r [out0 Hem]].
  rewrite Hem in Hprobe. injection Hprobe as -> <-.
  destruct (classify_eq filepath debug (search_patterns de_config) streams
              (emit w out0)) as [out1 [Heq _]].
  rewrite Heq in Hdec. cbn [fst] in Hdec.
  assert (Hd : spec_decision (search_patterns de_config) streams filepath
               = false) by congruence.
  rewrite Hd in Heq.
  unfold process_video_file. unfold bind at 1.
  rewrite select_config_eq, selected_is_de.
  unfold bind at 1. rewrite Hem. unfold bind. rewrite Heq.
  rewrite print_eq, !emit_emit. exists (out0 ++ out1)%list.
  now rewrite <- List.app_assoc.
Qed.

Lemma process_video_file_no_match_witness :
  exists out : list event,
    process_video_file no_ffprobe "Movies/Foo/Extras.mp4" false false "fr"
      empty_world
    = (Ret tt,
       emit empty_world
         (out ++ [Stdout (MsgNoMediaFound "German" "Movies/Foo/Extras.mp4")])).
Proof.
  apply (process_video_file_no_match no_ffprobe "Movies/Foo/Extras.mp4"
           false false "fr" empty_world
           (emit empty_world [Stderr MsgFfprobeNotFound]) []).
  - vm_compute. reflexivity.
  - vm_compute. reflexivity.
Defined.

(** X16. When ffprobe succeeds and its output is valid JSON that is not
    an object, [data.get] fails with [AttributeError], which none of the
    three handlers catches: [ffprobe_audio_tracks] raises it, and so does
    [process_video_file], which has then printed nothing and written
    nothing. *)
Theorem process_video_file_non_object_json_raises (X : externals)
    (filepath out : string) (dry_run debug : bool) (language : string)
    (w : world) :
  subprocess_run X filepath = Completed out ->
  json_loads X out = Some JOther ->
  ffprobe_audio_tracks X filepath w = (Raise AttributeError, w) /\
  process_video_file X filepath dry_run debug language w
  = (Raise AttributeError, w).
Proof.
  intros Hrun Hjson.
  assert (Hprobe : ffprobe_audio_tracks X filepath w
                   = (Raise AttributeError, w)).
  { unfold ffprobe_audio_tracks, try_except, bind, run_ffprobe, json_loads_M.
    rewrite Hrun. simpl. now rewrite Hjson. }
  split; [exact Hprobe |].
  rewrite process_video_file_eq. unfold bind at 1. now rewrite Hprobe.
Qed.

Lemma process_video_file_non_object_json_raises_witness :
  ffprobe_audio_tracks probe_prints_list "Movies/Foo/Movie.DE.mkv"
    empty_world
  = (Raise AttributeError, empty_world)
  /\
  process_video_file probe_prints_list "Movies/Foo/Movie.DE.mkv"
    false true "de" empty_world
  = (Raise AttributeError, empty_world).
Proof.
  apply (process_video_file_non_object_json_raises probe_prints_list
           "Movies/Foo/Movie.DE.mkv" "[]" false true "de" empty_world);
    reflexivity.
Defined.




(** ** The whole run *)

Section MainProperties.

Variable X : externals.
Variable os_walk : string -> list (string * list string * list string).

Lemma process_files_touches (root_dir : string) (files : list string)
    (args : Args.t) :
  touches_only
    (fun q => Args.dry_run args = false /\ os_path.basename q = "movie.nfo")
    (process_files X root_dir files args).
Proof.
  induction files as [| filename rest IH]; cbn [process_files].
  - apply touches_only_ret.
  - apply touches_only_bind; [| intros _; exact IH].
    destruct (has_video_extension filename); [| apply touches_only_ret].
    eapply touches_only_mono; [| apply process_video_file_touches].
    intros q [Hdry ->]. split; [exact Hdry | apply basename_join_nfo].
Qed.

Lemma walk_loop_touches (entries : list (string * list string * list string))
    (args : Args.t) :
  touches_only
    (fun q => Args.dry_run args = false /\ os_path.basename q = "movie.nfo")
    (walk_loop X entries args).
Proof.
  induction entries as [| [[root_dir dirs] files] rest IH]; cbn [walk_loop].
  - apply touches_only_ret.
  - apply touches_only_bind; [apply process_files_touches | intros _; exact IH].
Qed.

Lemma process_files_filter (root_dir : string) (files : list string)
    (args : Args.t) (w : world) :
  process_files X root_dir files args w
  = process_files X root_dir (List.filter has_video_extension files) args w.
Proof.
  revert w. induction files as [| filename rest IH]; intros w; [reflexivity |].
  cbn [process_files List.filter].
  destruct (has_video_extension filename) eqn:E.
  - cbn [process_files]. rewrite E. unfold bind.
    destruct (process_video_file X (os_path.join root_dir filename)
                (Args.dry_run args) (Args.debug args) (Args.language args) w)
      as [[u | e] w1]; [apply IH | reflexivity].
  - unfold bind, ret. apply IH.
Qed.

End MainProperties.

(** X18. A dry run of [main] prints the dry-run banner and leaves the
    whole disk as it was, whatever the tree holds and even when the run is
    cut short by an exception. *)
Theorem main_dry_run (X : externals)
    (os_walk : string -> list (string * list string * list string))
    (args : Args.t) (w : world) :
  Args.dry_run args = true ->
  fst (main X os_walk args w) = BannerDryRun /\
  disk (snd (snd (main X os_walk args w))) = disk w.
Proof.
  intros Hdry. unfold main. cbn [fst snd]. rewrite Hdry. split; [reflexivity |].
  apply touches_nothing_disk.
  eapply touches_only_mono; [| apply walk_loop_touches].
  intros q [H _]. simpl in H. congruence.
Qed.

Lemma main_dry_run_witness :
  fst (main no_ffprobe small_walk dry_args (world_with "<movie />"))
  = BannerDryRun /\
  disk (snd (snd (main no_ffprobe small_walk dry_args (world_with "<movie />"))))
  = disk (world_with "<movie />").
Proof.
  apply (main_dry_run no_ffprobe small_walk dry_args (world_with "<movie />")).
  reflexivity.
Defined.

(** X19. [main] only ever writes files named movie.nfo and deletes
    nothing: every path whose base name is not movie.nfo, in particular
    every video file, has after the run the content it had before, and
    every file that existed still exists. *)
Theorem main_writes_only_sidecars (X : externals)
    (os_walk : string -> list (string * list string * list string))
    (args : Args.t) (w : world) :
  let w' := snd (snd (main X os_walk args w)) in
  (forall q : string,
      os_path.basename q <> "movie.nfo" -> disk w' !! q = disk w !! q) /\
  (forall q : string, is_Some (disk w !! q) -> is_Some (disk w' !! q)).
Proof.
  unfold main. cbn [snd].
  destruct (walk_loop_touches X (os_walk (Args.path args)) args w) as [H1 H2].
  split; [| exact H2]. intros q Hq. apply H1. tauto.
Qed.

(** X20. [main] looks at nothing but the files with a video extension:
    the sub-directory lists of the walk and every file with another
    extension can be dropped from the listing without changing the run. *)
Theorem main_ignores_other_files (X : externals)
    (os_walk : string -> list (string * list string * list string))
    (args : Args.t) (w : world) :
  main X os_walk args w
  = main X
      (fun top =>
         map (fun entry : string * list string * list string =>
                (fst (fst entry), [], List.filter has_video_extension (snd entry)))
             (os_walk top))
      args w.
Proof.
  unfold main. f_equal.
  generalize (os_walk (Args.path args)) as entries. intros entries. revert w.
  induction entries as [| [[root_dir dirs] files] rest IH]; intros w;
    [reflexivity |].
  cbn [map walk_loop fst snd]. unfold bind.
  rewrite <- process_files_filter.
  destruct (process_files X root_dir files args w) as [[u | e] w1];
    [apply IH | reflexivity].
Qed.

(** ** File extensions *)

Lemma all_char_rfind_other (c c' : ascii) (s : string) :
  Ascii.eqb c c' = false -> Str.all_char c s = true -> Str.rfind c' s = -1.
Proof.
  intros Hne. induction s as [| a r IH]; [reflexivity |].
  simpl. intros H. apply andb_true_iff in H as [Ha Hr].
  rewrite (IH Hr). simpl. apply Ascii.eqb_eq in Ha as ->. now rewrite Hne.
Qed.

Lemma all_char_rfind (c : ascii) (s : string) :
  Str.all_char c s = true -> Str.rfind c s = Z.of_nat (String.length s) - 1.
Proof.
  induction s as [| a r IH]; [reflexivity |].
  simpl Str.all_char. intros H. apply andb_true_iff in H as [Ha Hr].
  cbn [Str.rfind String.length]. rewrite (IH Hr). cbv zeta.
  destruct r as [| b r'].
  - simpl. now rewrite Ha.
  - destruct (0 <=? Z.of_nat (String.length (String b r')) - 1) eqn:E.
    + lia.
    + apply Z.leb_gt in E. simpl String.length in E. lia.
Qed.

Lemma slice_one (pre : string) (a : ascii) (r : string) :
  str_slice (String.length pre) (String.length pre + 1) (pre +:+ String a r)
  = String a "".
Proof.
  unfold str_slice.
  replace (String.length pre + 1 - String.length pre)%nat with 1%nat by lia.
  rewrite drop_app_length. reflexivity.
Qed.

Lemma finds_non_dot_all_dots (n : nat) :
  forall pre dots rest : string,
    Str.all_char "." dots = true ->
    (n <= String.length dots)%nat ->
    genericpath.finds_non_dot (pre +:+ dots +:+ rest) (String.length pre) n
    = false.
Proof.
  induction n as [| k IH]; intros pre dots rest Hall Hn; [reflexivity |].
  destruct dots as [| a d]; [simpl in Hn; lia |].
  simpl in Hall. apply andb_true_iff in Hall as [Ha Hd].
  apply Ascii.eqb_eq in Ha as ->.
  cbn [genericpath.finds_non_dot]. rewrite str_app_cons, slice_one.
  cbn [String.eqb Ascii.eqb Bool.eqb negb andb].
  replace (pre +:+ String "." (d +:+ rest))
    with ((pre +:+ ".") +:+ d +:+ rest) by now rewrite str_app_assoc.
  replace (S (String.length pre)) with (String.length (pre +:+ "."))
    by (rewrite str_app_length; simpl; lia).
  apply IH; [exact Hd | simpl in Hn; lia].
Qed.

Lemma finds_non_dot_found (stem : string) :
  forall pre rest : string,
    Str.all_char "." stem = false ->
    genericpath.finds_non_dot (pre +:+ stem +:+ rest) (String.length pre)
      (String.length stem)
    = true.
Proof.
  induction stem as [| a s IH]; intros pre rest Hall; [discriminate |].
  cbn [genericpath.finds_non_dot String.length].
  rewrite str_app_cons, slice_one.
  simpl in Hall.
  destruct (Ascii.eqb a ".") eqn:Ea.
  - apply Ascii.eqb_eq in Ea as ->.
    cbn [String.eqb Ascii.eqb Bool.eqb negb andb].
    replace (pre +:+ String "." (s +:+ rest))
      with ((pre +:+ ".") +:+ s +:+ rest) by now rewrite str_app_assoc.
    replace (S (String.length pre)) with (String.length (pre +:+ "."))
      by (rewrite str_app_length; simpl; lia).
    apply IH. exact Hall.
  - assert (Hs : String.eqb (String a "") "." = false).
    { simpl. now rewrite Ea. }
    now rewrite Hs.
Qed.

Lemma splitext_no_extension (dots rest : string) :
  Str.all_char "." dots = true ->
  Str.rfind "." rest = -1 ->
  Str.rfind "/" rest = -1 ->
  genericpath.splitext (dots +:+ rest) = (dots +:+ rest, "").
Proof.
  intros Hdots Hdot Hsep. unfold genericpath.splitext, os_path.sep.
  rewrite (rfind_app_nosep "/" dots rest Hsep).
  rewrite (all_char_rfind_other "." "/" dots eq_refl Hdots).
  rewrite (rfind_app_nosep "." dots rest Hdot).
  rewrite (all_char_rfind "." dots Hdots). cbv zeta.
  destruct (-1 <? Z.of_nat (String.length dots) - 1) eqn:E; [| reflexivity].
  change (Z.to_nat (-1 + 1)) with 0%nat.
  rewrite (finds_non_dot_all_dots _ "" dots rest Hdots); [reflexivity | lia].
Qed.

Lemma splitext_last_dot (stem e : string) :
  Str.all_char "." stem = false ->
  Str.rfind "/" stem = -1 ->
  Str.rfind "." e = -1 ->
  Str.rfind "/" e = -1 ->
  genericpath.splitext (stem +:+ "." +:+ e) = (stem, "." +:+ e).
Proof.
  intros Hstem Hsep Hdot Hsep'. unfold genericpath.splitext, os_path.sep.
  assert (Hse : Str.rfind "/" ("." +:+ e) = -1).
  { change ("." +:+ e) with (String "."%char e). simpl. now rewrite Hsep'. }
  rewrite (rfind_app_nosep "/" stem _ Hse).
  rewrite Hsep.
  change (stem +:+ "." +:+ e) with (stem +:+ String "."%char e).
  rewrite (rfind_app_sep_last "." stem e Hdot). cbv zeta.
  destruct (-1 <? Z.of_nat (String.length stem)) eqn:E;
    [| apply Z.ltb_ge in E; lia].
  change (Z.to_nat (-1 + 1)) with 0%nat.
  rewrite Nat2Z.id, Nat.sub_0_r.
  pose proof (finds_non_dot_found stem "" (String "."%char e) Hstem) as Hf.
  change ("" +:+ stem +:+ String "."%char e)
    with (stem +:+ String "."%char e) in Hf.
  change (String.length "") with 0%nat in Hf.
  rewrite Hf.
  now rewrite take_app_length, drop_app_length.
Qed.

(** X21. A file name without extension is never processed: when the name
    is made of leading dots followed by text without a dot (a plain name
    such as "README", or a dot-file such as ".mkv"), [splitext] gives the
    empty extension, which is not a video extension. *)
Theorem no_extension_is_not_video (dots rest : string) :
  Str.all_char "." dots = true ->
  Str.rfind "." rest = -1 ->
  Str.rfind "/" rest = -1 ->
  has_video_extension (dots +:+ rest) = false.
Proof.
  intros Hdots Hdot Hsep. unfold has_video_extension.
  now rewrite (splitext_no_extension dots rest Hdots Hdot Hsep).
Qed.

Lemma no_extension_is_not_video_witness :
  has_video_extension ("." +:+ "mkv") = false /\
  has_video_extension ("" +:+ "README") = false.
Proof.
  split.
  - apply (no_extension_is_not_video "." "mkv"); reflexivity.
  - apply (no_extension_is_not_video "" "README"); reflexivity.
Defined.

(** X22. Only the text after the last dot of a file name decides, and it
    is compared in lower case: for a name [stem.e] whose stem is not made
    of dots only, [splitext] gives the extension [.e], and the file is a
    video file exactly when the lower-cased [.e] is one of
    [VIDEO_EXTENSIONS]. *)
Theorem video_extension_after_last_dot (stem e : string) :
  Str.all_char "." stem = false ->
  Str.rfind "/" stem = -1 ->
  Str.rfind "." e = -1 ->
  Str.rfind "/" e = -1 ->
  genericpath.splitext (stem +:+ "." +:+ e) = (stem, "." +:+ e) /\
  has_video_extension (stem +:+ "." +:+ e)
  = bool_decide (str_lower ("." +:+ e) ∈ VIDEO_EXTENSIONS).
Proof.
  intros Hstem Hsep Hdot Hsep'.
  pose proof (splitext_last_dot stem e Hstem Hsep Hdot Hsep') as H.
  split; [exact H |]. unfold has_video_extension. now rewrite H.
Qed.

Lemma video_extension_after_last_dot_witness :
  genericpath.splitext ("Trailer.2024" +:+ "." +:+ "MKV")
  = ("Trailer.2024", "." +:+ "MKV") /\
  has_video_extension ("Trailer.2024" +:+ "." +:+ "MKV")
  = bool_decide (str_lower ("." +:+ "MKV") ∈ VIDEO_EXTENSIONS).
Proof.
  apply (video_extension_after_last_dot "Trailer.2024" "MKV"); reflexivity.
Defined.

Example trailer_is_video : has_video_extension "Trailer.2024.MKV" = true.
Proof. vm_compute. reflexivity. Qed.

Example sidecar_is_not_video : has_video_extension "movie.nfo" = false.
Proof. vm_compute. reflexivity. Qed.

(** ** Processing a file again *)

(** X23. Once the sidecar of a directory holds every tag of the profile,
    processing a file of that directory changes nothing on disk, in a hot
    run too and whatever the probe and the classifier say: a second run
    over the same file adds no tag. *)
Theorem process_video_file_again (X : externals) (filepath : string)
    (dry_run debug : bool) (language : string) (w : world) :
  let nfo_path := os_path.join (os_path.dirname filepath) "movie.nfo" in
  (forall t : string,
      In t (tags_to_add de_config) ->
      has_tag_child (root_of_disk X (disk w) nfo_path) t) ->
  disk (snd (process_video_file X filepath dry_run debug language w)) = disk w.
Proof.
  intros nfo_path Hall. rewrite process_video_file_eq.
  destruct (ffprobe_audio_tracks_emits X filepath w) as [r [out Hem]].
  unfold bind at 1. rewrite Hem. destruct r as [streams | e]; [| reflexivity].
  destruct (classify_eq filepath debug (search_patterns de_config) streams
              (emit w out)) as [out1 [Heq _]].
  unfold bind at 1. rewrite Heq.
  destruct (spec_decision (search_patterns de_config) streams filepath).
  - unfold bind. fold nfo_path.
    rewrite (update_all_present_eq X nfo_path (tags_to_add de_config)
               dry_run debug (emit (emit w out) out1) Hall).
    reflexivity.
  - reflexivity.
Qed.

Lemma process_video_file_again_witness :
  disk (snd (process_video_file no_ffprobe "Movies/Foo/Movie.DE.mkv" false
               false "de" (world_with (PlainXml.write both_doc))))
  = disk (world_with (PlainXml.write both_doc)).
Proof.
  apply (process_video_file_again no_ffprobe "Movies/Foo/Movie.DE.mkv" false
           false "de" (world_with (PlainXml.write both_doc))).
  intros t Hin. apply tag_exists_iff.
  simpl in Hin. destruct Hin as [<- | [<- | []]]; vm_compute; reflexivity.
Defined.
